(** * The eyescream example service ([main.py]): a shallow embedding

    [main.py] is a sequencing of side effects: it creates working
    directories, writes and reads files, calls an image library, an
    augmentation routine and a training script, and stores what it read
    in the dictionary [c3.state].  The embedding threads an explicit
    world (file system, current directory, [c3], standard output, log of
    external calls) through a state-and-exception monad.  Python raises
    where Rocq would be partial, so every operation returns a [result].

    Conventions.
    - POSIX paths: [os.path.sep] is "/"; a path is a Python string, and
      the file system resolves it component by component ("." , ".." and
      symbolic links are not modelled).
    - A directory is an association list of named entries; the order of
      the list is the order in which [os.scandir] lists the directory.
    - Code outside [main.py] (PIL, [lib.eyescream], a spawned process) is
      a field of [Env] or of the image object: the theorems hold for any
      behaviour of it. *)

From Stdlib Require Import Ascii String.
From stdpp Require Import base strings list gmap.

Local Open Scope string_scope.
Set Warnings "-register-all".

(* ================================================================== *)
(** ** Python values and exceptions *)

Abbreviation bytes := (list Byte.byte).

(** The Python values the program handles. *)
Inductive pyval : Type :=
| VNone
| VBool (b : bool)
| VInt (z : Z)
| VStr (s : string)
| VBytes (b : bytes)
| VList (l : list pyval).

(** Truth value of an object, as [not x] and [if x] test it. *)
Definition truthy (v : pyval) : bool :=
  match v with
  | VNone => false
  | VBool b => b
  | VInt z => negb (z =? 0)%Z
  | VStr s => negb (String.eqb s "")
  | VBytes b => match b with [] => false | _ => true end
  | VList l => match l with [] => false | _ => true end
  end.

(** Exceptions.  The first four are the module-level objects of lines
    8-11; the others are raised by the interpreter, by [os] and [open],
    or by external code. *)
Inductive exn : Type :=
| PillowImageRequired
| InvalidImage
| C3Required
| TrainingFailed
| NameError (name : string)
| TypeError
| AttributeError
| KeyError
| IndexError
| FileNotFoundError
| FileExistsError
| NotADirectoryError
| IsADirectoryError
| OtherError (what : string)      (* any other subclass of [Exception] *)
| SystemExiting (what : string).  (* [BaseException] outside [Exception]:
                                     KeyboardInterrupt, SystemExit, ... *)

(** [isinstance(e, Exception)]: what [except Exception] catches. *)
Definition is_Exception (e : exn) : bool :=
  match e with
  | SystemExiting _ => false
  | _ => true
  end.

(** [str(e)], as [print] shows it. *)
Definition str_exn (e : exn) : string :=
  match e with
  | PillowImageRequired => "pillow image is required"
  | InvalidImage => "invalid image"
  | C3Required => "c3 cannot be None"
  | TrainingFailed => "model training failed"
  | NameError name => "name '" +:+ name +:+ "' is not defined"
  | OtherError what => what
  | SystemExiting what => what
  | _ => ""
  end.

Inductive result (A : Type) : Type :=
| Ok (a : A)
| Raise (e : exn).
Arguments Ok {A} a.
Arguments Raise {A} e.

(** [x + y] on the values that occur: concatenation of two strings or of
    two byte strings, addition of two integers; a string and an integer
    do not add. *)
Definition py_add (x y : pyval) : result pyval :=
  match x, y with
  | VStr a, VStr b => Ok (VStr (a +:+ b))
  | VInt a, VInt b => Ok (VInt (a + b))
  | VBytes a, VBytes b => Ok (VBytes (a ++ b))
  | VList a, VList b => Ok (VList (a ++ b))
  | _, _ => Raise TypeError
  end.

(** [len(x)]. *)
Definition py_len (x : pyval) : result nat :=
  match x with
  | VStr s => Ok (String.length s)
  | VBytes b => Ok (length b)
  | VList l => Ok (length l)
  | _ => Raise TypeError
  end.

(** [x[i]] for an index [i] of [range(len(x))]. *)
Definition py_getitem (x : pyval) (i : nat) : result pyval :=
  match x with
  | VList l => match l !! i with Some v => Ok v | None => Raise IndexError end
  | VBytes b =>
      match b !! i with
      | Some c => Ok (VInt (Z.of_N (Byte.to_N c)))
      | None => Raise IndexError
      end
  | VStr s =>
      match String.get i s with
      | Some c => Ok (VStr (String c EmptyString))
      | None => Raise IndexError
      end
  | _ => Raise TypeError
  end.

(** [s.startswith(pat)] *)
Fixpoint starts_with (pat s : string) : bool :=
  match pat, s with
  | EmptyString, _ => true
  | String a pat', String b s' => Ascii.eqb a b && starts_with pat' s'
  | String _ _, EmptyString => false
  end.

(** [pat in s] on strings. *)
Fixpoint contains (pat s : string) : bool :=
  starts_with pat s
  || match s with
     | EmptyString => false
     | String _ s' => contains pat s'
     end.

(* ================================================================== *)
(** ** Paths *)

Definition sep : string := "/".

Definition is_sep (c : Ascii.ascii) : bool := Ascii.eqb c "/"%char.

(** The pieces of a string between separators; never the empty list. *)
Fixpoint split (s : string) : list string :=
  match s with
  | EmptyString => [EmptyString]
  | String c s' =>
      if is_sep c then EmptyString :: split s'
      else match split s' with
           | h :: t => String c h :: t
           | [] => [String c EmptyString]
           end
  end.

Definition nonempty (s : string) : bool := negb (String.eqb s "").

(** The components the kernel walks through: empty pieces (doubled or
    trailing separators) do not count. *)
Definition components (p : string) : list string := List.filter nonempty (split p).

Definition is_abs (p : string) : bool := starts_with sep p.

(** A relative path starts from the current directory. *)
Definition resolve (cwd p : string) : list string :=
  if is_abs p then components p else components cwd ++ components p.

Fixpoint ends_with_sep (s : string) : bool :=
  match s with
  | EmptyString => false
  | String c EmptyString => is_sep c
  | String _ s' => ends_with_sep s'
  end.

(** [os.path.join(a, b)] (posixpath). *)
Definition join (a b : string) : string :=
  if is_abs b then b
  else if String.eqb a "" || ends_with_sep a then a +:+ b
  else a +:+ sep +:+ b.

(** A name a directory entry can have. *)
Definition valid_name (s : string) : bool :=
  nonempty s && negb (contains sep s).

(* ================================================================== *)
(** ** The file system *)

(** A regular file with its content, or a directory with its entries in
    listing order. *)
Inductive node : Type :=
| File (data : bytes)
| Dir (entries : list (string * node)).

Fixpoint assoc (k : string) (es : list (string * node)) : option node :=
  match es with
  | [] => None
  | (k', v) :: es' => if String.eqb k k' then Some v else assoc k es'
  end.

(** Replace the entry named [k] where it stands; a new name goes last. *)
Fixpoint assoc_put (k : string) (v : node) (es : list (string * node))
  : list (string * node) :=
  match es with
  | [] => [(k, v)]
  | (k', v') :: es' =>
      if String.eqb k k' then (k, v) :: es' else (k', v') :: assoc_put k v es'
  end.

(** Path resolution from the node [n], as [stat] does it. *)
Fixpoint find (p : list string) (n : node) : result node :=
  match p with
  | [] => Ok n
  | c :: p' =>
      match n with
      | File _ => Raise NotADirectoryError
      | Dir es =>
          match assoc c es with
          | None => Raise FileNotFoundError
          | Some m => find p' m
          end
      end
  end.

(** A chain of new, otherwise empty directories. *)
Fixpoint fresh_dirs (p : list string) : node :=
  match p with
  | [] => Dir []
  | c :: p' => Dir [(c, fresh_dirs p')]
  end.

(** [os.makedirs]: creates the directory and the ancestors it lacks. *)
Fixpoint mkdirs (p : list string) (n : node) : result node :=
  match n with
  | File _ => Raise (match p with [] => FileExistsError | _ => NotADirectoryError end)
  | Dir es =>
      match p with
      | [] => Raise FileExistsError
      | c :: p' =>
          match assoc c es with
          | None => Ok (Dir (es ++ [(c, fresh_dirs p')]))
          | Some m =>
              match mkdirs p' m with
              | Ok m' => Ok (Dir (assoc_put c m' es))
              | Raise e => Raise e
              end
          end
      end
  end.

(** The file at [p] gets the content [b]; it is created when its
    directory exists ([open] with a writing mode, [write], [close]). *)
Fixpoint put_file (p : list string) (b : bytes) (n : node) : result node :=
  match p with
  | [] => Raise IsADirectoryError
  | c :: p' =>
      match n with
      | File _ => Raise NotADirectoryError
      | Dir es =>
          match p' with
          | [] =>
              match assoc c es with
              | Some (Dir _) => Raise IsADirectoryError
              | _ => Ok (Dir (assoc_put c (File b) es))
              end
          | _ :: _ =>
              match assoc c es with
              | None => Raise FileNotFoundError
              | Some m =>
                  match put_file p' b m with
                  | Ok m' => Ok (Dir (assoc_put c m' es))
                  | Raise e => Raise e
                  end
              end
          end
      end
  end.

(** The content of the regular file at [p]. *)
Definition get_file (p : list string) (n : node) : result bytes :=
  match find p n with
  | Ok (File b) => Ok b
  | Ok (Dir _) => Raise IsADirectoryError
  | Raise e => Raise e
  end.

Definition is_dir (p : list string) (n : node) : bool :=
  match find p n with
  | Ok (Dir _) => true
  | _ => false
  end.

(** [os.path.exists]: false as well when [stat] fails. *)
Definition path_exists (p : list string) (n : node) : bool :=
  match find p n with
  | Ok _ => true
  | Raise _ => false
  end.

(** A regular file stands at [p] or at a prefix of it. *)
Fixpoint obstructed (p : list string) (n : node) : bool :=
  match n with
  | File _ => true
  | Dir es =>
      match p with
      | [] => false
      | c :: p' =>
          match assoc c es with
          | None => false
          | Some m => obstructed p' m
          end
      end
  end.

Definition subdirs (es : list (string * node)) : list string :=
  flat_map (fun e => match snd e with Dir _ => [fst e] | File _ => [] end) es.

Definition nondirs (es : list (string * node)) : list string :=
  flat_map (fun e => match snd e with Dir _ => [] | File _ => [fst e] end) es.

(** [os.walk(top)], top-down: one triple (root, directory names, file
    names) per directory; what is not a directory yields nothing. *)
Fixpoint walk (top : string) (n : node) : list (string * list string * list string) :=
  match n with
  | File _ => []
  | Dir es =>
      (top, subdirs es, nondirs es)
        :: flat_map (fun e => match snd e with
                              | Dir _ => walk (join top (fst e)) (snd e)
                              | File _ => []
                              end) es
  end.

(** Names are valid and distinct in every directory. *)
Fixpoint wf (n : node) : bool :=
  match n with
  | File _ => true
  | Dir es =>
      forallb valid_name (map fst es)
      && bool_decide (NoDup (map fst es))
      && forallb (fun e => wf (snd e)) es
  end.

(* ================================================================== *)
(** ** The world and the monad of effects *)

(** Calls into code outside [main.py], in the order they are made. *)
Inductive call : Type :=
| CallVerify
| CallSave (path : string) (format : option string)
| CallOpen (arg : pyval)
| CallGen (input aug unaug : string)
| CallRun (args : list string).

Record World : Type := mkWorld {
  fs : node;                          (* the file system, from "/" *)
  cwd : string;                       (* the process's current directory *)
  c3 : option (gmap string pyval);    (* the global [c3]: [Some st] is an
                                         SDK object whose [state] is [st] *)
  stdout : list string;               (* lines printed *)
  calls : list call                   (* external calls made *)
}.

Definition set_fs (n : node) (w : World) : World :=
  mkWorld n (cwd w) (c3 w) (stdout w) (calls w).

Definition set_state (st : gmap string pyval) (w : World) : World :=
  mkWorld (fs w) (cwd w) (Some st) (stdout w) (calls w).

Definition M (A : Type) : Type := World -> result A * World.

Definition ret {A} (a : A) : M A := fun w => (Ok a, w).

Definition raise {A} (e : exn) : M A := fun w => (Raise e, w).

Definition bind {A B} (m : M A) (k : A -> M B) : M B :=
  fun w =>
    match m w with
    | (Ok a, w') => k a w'
    | (Raise e, w') => (Raise e, w')
    end.

Declare Scope py_scope.
Delimit Scope py_scope with py.
Notation "x <- c ;; k" := (bind c (fun x => k))
  (at level 100, c at next level, right associativity) : py_scope.
Notation "c ;; k" := (bind c (fun _ => k))
  (at level 100, k at level 200, right associativity) : py_scope.
Local Open Scope py_scope.

Definition lift {A} (r : result A) : M A := fun w => (r, w).

(** [try: body / except Exception as err: handler err]. *)
Definition try_except {A} (body : M A) (handler : exn -> M A) : M A :=
  fun w =>
    match body w with
    | (Raise e, w') => if is_Exception e then handler e w' else (Raise e, w')
    | r => r
    end.

(** [for x in l: body x]. *)
Fixpoint for_each {A} (l : list A) (body : A -> M unit) : M unit :=
  match l with
  | [] => ret tt
  | x :: l' => body x ;; for_each l' body
  end.

Definition print (line : string) : M unit :=
  fun w => (Ok tt, mkWorld (fs w) (cwd w) (c3 w) (stdout w ++ [line]) (calls w)).

Definition log (c : call) : M unit :=
  fun w => (Ok tt, mkWorld (fs w) (cwd w) (c3 w) (stdout w) (calls w ++ [c])).

(** *** Names *)

(** The names [main.py] binds at module level (imports, assignments,
    function definitions), and the built-ins it uses. *)
Definition module_globals : list string :=
  [ "sdk"; "gd"; "Image"; "io"; "os"; "c3";
    "PillowImageRequired"; "InvalidImage"; "C3Required"; "TrainingFailed";
    "standardImgFormat"; "tmpDir"; "libDir";
    "inputRelPath"; "augRelPath"; "unaugRelPath"; "networkRelPath";
    "scriptFileRelPath"; "inputAbsPath"; "augAbsPath"; "unaugAbsPath";
    "networkAbsPath"; "oldNetworkAbsPath"; "newNetworkAbsPath";
    "scriptFileAbsPath"; "augImagesKey"; "networkKey";
    "main"; "initState"; "writeBytesToFile"; "readBytesFromFile";
    "imageFromBytes"; "imageToBytes"; "acceptImage"; "gatherState" ].

Definition builtins : list string :=
  [ "print"; "open"; "range"; "len"; "Exception"; "bytearray"; "None" ].

Definition bound (name : string) : bool :=
  existsb (String.eqb name) (module_globals ++ builtins).

(** Looking a global name up: a name bound neither in the module nor in
    the built-ins raises [NameError]. *)
Definition load_global (name : string) : M unit :=
  if bound name then ret tt else raise (NameError name).

(** *** [c3.state] *)

(** [c3.state]; on [None] the attribute access fails. *)
Definition get_state : M (gmap string pyval) :=
  fun w =>
    match c3 w with
    | Some st => (Ok st, w)
    | None => (Raise AttributeError, w)
    end.

(** [key in c3.state] *)
Definition state_contains (key : string) : M bool :=
  st <- get_state ;;
  ret (bool_decide (is_Some (st !! key))).

(** [c3.state[key]] *)
Definition state_getitem (key : string) : M pyval :=
  st <- get_state ;;
  match st !! key with
  | Some v => ret v
  | None => raise KeyError
  end.

(** [c3.state[key] = v] *)
Definition state_setitem (key : string) (v : pyval) : M unit :=
  st <- get_state ;;
  fun w => (Ok tt, set_state (<[key := v]> st) w).

(** [c3.state[key].append(x)]: the list held under [key] grows in place. *)
Definition state_append (key : string) (x : pyval) : M unit :=
  l <- state_getitem key ;;
  match l with
  | VList xs => state_setitem key (VList (xs ++ [x]))
  | _ => raise AttributeError
  end.

(** *** [os] and [open] *)

Definition os_path_exists (p : string) : M bool :=
  load_global "os" ;;
  fun w => (Ok (path_exists (resolve (cwd w) p) (fs w)), w).

Definition os_makedirs (p : string) : M unit :=
  load_global "os" ;;
  fun w =>
    match mkdirs (resolve (cwd w) p) (fs w) with
    | Ok n => (Ok tt, set_fs n w)
    | Raise e => (Raise e, w)
    end.

(** [os.walk(top)]: an error of [scandir] is ignored, so a missing [top]
    yields no triple. *)
Definition os_walk (top : string) : M (list (string * list string * list string)) :=
  load_global "os" ;;
  fun w =>
    (Ok match find (resolve (cwd w) top) (fs w) with
        | Ok n => walk top n
        | Raise _ => []
        end, w).

(** The file gets the content [b] (open for writing, write, close). *)
Definition write_file (p : string) (b : bytes) : M unit :=
  fun w =>
    match put_file (resolve (cwd w) p) b (fs w) with
    | Ok n => (Ok tt, set_fs n w)
    | Raise e => (Raise e, w)
    end.

(** [open(p, "rb+").read()] *)
Definition read_file (p : string) : M bytes :=
  fun w => (get_file (resolve (cwd w) p) (fs w), w).

(* ================================================================== *)
(** ** Code outside [main.py] *)

(** An image object, by what [main.py] asks of it: [verify()] returns a
    value or raises; [save(fp, format)] encodes the picture (raising when
    it cannot) and the bytes go to the file [fp]. *)
Record Image : Type := mkImage {
  verify : result pyval;
  encode : string -> option string -> result bytes
}.

Record Env : Type := mkEnv {
  (** [os.path.dirname(os.path.abspath(__file__))] *)
  moduleDir : string;
  (** [PIL.Image.open] *)
  Image_open : pyval -> result Image;
  (** [lib.eyescream.dataset.generate_dataset.gen]: any change of the
      file system, then a return or an exception. *)
  gd_gen : string -> string -> string -> node -> result unit * node;
  (** What running a command does: any change of the file system, then
      a return code, or an exception when it cannot be started. *)
  subprocess_run : list string -> node -> result Z * node
}.

(* ================================================================== *)
(** ** [main.py] *)

Definition standardImgFormat : string := "JPEG".
Definition tmpDir : string := "tmp".
Definition libDir : string := "lib".
Definition inputRelPath : string := tmpDir +:+ sep +:+ "input".
Definition augRelPath : string := tmpDir +:+ sep +:+ "aug_64x64".
Definition unaugRelPath : string := tmpDir +:+ sep +:+ "unaug_64x64".
Definition networkRelPath : string := tmpDir +:+ sep +:+ "network".
Definition scriptFileRelPath : string :=
  libDir +:+ sep +:+ "eyescream" +:+ sep +:+ "train.lua".
Definition augImagesKey : string := "aug_images".
Definition networkKey : string := "network".

Section Program.

Variable E : Env.

Definition inputAbsPath : string := moduleDir E +:+ sep +:+ inputRelPath.
Definition augAbsPath : string := moduleDir E +:+ sep +:+ augRelPath.
Definition unaugAbsPath : string := moduleDir E +:+ sep +:+ unaugRelPath.
Definition networkAbsPath : string := moduleDir E +:+ sep +:+ networkRelPath.
Definition oldNetworkAbsPath : string := networkAbsPath +:+ sep +:+ "old.net".
Definition newNetworkAbsPath : string := networkAbsPath +:+ sep +:+ "adversarial.net".
Definition scriptFileAbsPath : string := moduleDir E +:+ sep +:+ scriptFileRelPath.

(** [img.verify()] *)
Definition call_verify (img : Image) : M pyval :=
  log CallVerify ;; lift (verify img).

(** [img.save(fp, format=format)] *)
Definition call_save (img : Image) (fp : string) (format : option string) : M unit :=
  log (CallSave fp format) ;;
  b <- lift (encode img fp format) ;;
  write_file fp b.

(** [gd.gen(input, aug, unaug)] *)
Definition call_gen (input aug unaug : string) : M unit :=
  load_global "gd" ;;
  log (CallGen input aug unaug) ;;
  fun w => let (r, n) := gd_gen E input aug unaug (fs w) in (r, set_fs n w).

(** [subprocess.run(args).returncode] *)
Definition call_run (args : list string) : M Z :=
  load_global "subprocess" ;;
  log (CallRun args) ;;
  fun w => let (r, n) := subprocess_run E args (fs w) in (r, set_fs n w).

(** Lines 64-67. *)
Definition writeBytesToFile (b : pyval) (fileName : string) : M unit :=
  write_file fileName [] ;;                       (* open(fileName, 'wb+') *)
  match b with
  | VBytes d => write_file fileName d            (* f.write(b); f.close() *)
  | _ => raise TypeError
  end.

(** Lines 70-71. *)
Definition readBytesFromFile (filename : string) : M bytes :=
  read_file filename.

(** Lines 73-75. *)
Definition imageFromBytes (b : pyval) : M Image :=
  load_global "Image" ;;
  log (CallOpen b) ;;
  lift (Image_open E b).

(** Lines 43-50, one directory: [if not os.path.exists(p): os.makedirs(p)]. *)
Definition ensure_dir (p : string) : M unit :=
  e <- os_path_exists p ;;
  if e then ret tt else os_makedirs p.

(** Lines 53-56, one turn of the loop. *)
Definition rehydrate (idx : nat) : M unit :=
  l <- state_getitem augImagesKey ;;
  b <- lift (py_getitem l idx) ;;
  im <- imageFromBytes b ;;
  s1 <- lift (py_add (VStr augAbsPath) (VStr sep)) ;;
  s2 <- lift (py_add s1 (VInt (Z.of_nat idx))) ;;
  s3 <- lift (py_add s2 (VStr standardImgFormat)) ;;
  match s3 with
  | VStr fp => call_save im fp None
  | _ => raise TypeError
  end.

(** Lines 43-50: the four working directories. *)
Definition initState_dirs : M unit :=
  ensure_dir inputRelPath ;;
  ensure_dir augRelPath ;;
  ensure_dir unaugRelPath ;;
  ensure_dir networkRelPath.

(** Lines 52-56: the stored augmented images go back to disk. *)
Definition initState_images : M unit :=
  has_aug <- state_contains augImagesKey ;;
  if has_aug then
    l <- state_getitem augImagesKey ;;
    n <- lift (py_len l) ;;
    for_each (seq 0 n) rehydrate
  else ret tt.

(** Lines 58-62: the stored network goes to the old-network file. *)
Definition initState_network : M unit :=
  has_net <- state_contains networkKey ;;
  network <- (if has_net then state_getitem networkKey else ret (VBytes [])) ;;
  writeBytesToFile network oldNetworkAbsPath.

(** Lines 37-62. *)
Definition initState : M unit :=
  fun w =>
    match c3 w with
    | None => (print "c3 is none" ;; raise C3Required) w
    | Some _ => (initState_dirs ;; initState_images ;; initState_network) w
    end.

(** Lines 122-123, for one file name [file] of the directory [r]. *)
Definition keep_file (r file : string) : M unit :=
  if contains ("." +:+ standardImgFormat) file then
    _ <- state_getitem augImagesKey ;;
    b <- readBytesFromFile (join r file) ;;
    state_append augImagesKey (VBytes b)
  else ret tt.

(** Lines 114-123. *)
Definition gatherState : M unit :=
  b <- read_file newNetworkAbsPath ;;
  state_setitem networkKey (VBytes b) ;;
  state_setitem augImagesKey (VList []) ;;
  triples <- os_walk augAbsPath ;;
  for_each triples (fun '(r, d, f) => for_each f (keep_file r)).

(** Lines 85-112. *)
Definition acceptImage (img : option Image) : M unit :=
  match img with
  | None => print "pillow image is required" ;; raise PillowImageRequired
  | Some im =>
      try_except
        (ok <- call_verify im ;;
         if negb (truthy ok) then
           print "image failed to verify" ;; raise InvalidImage
         else ret tt)
        (fun err => print ("invalid img " +:+ str_exn err) ;; raise InvalidImage) ;;
      call_save im (inputAbsPath +:+ sep +:+ "input." +:+ standardImgFormat)
                (Some standardImgFormat) ;;
      call_gen inputAbsPath augAbsPath unaugAbsPath ;;
      returncode <- call_run [scriptFileAbsPath; "--network"; oldNetworkAbsPath;
                              "--save"; networkAbsPath] ;;
      if negb (returncode =? 0)%Z then
        print "Preprocess failed:  None" ;; raise TrainingFailed
      else gatherState
  end.

End Program.

(* ================================================================== *)
(** ** Vocabulary of the statements *)

(** The relative paths of lines 15-18 that lines 43-50 create. *)
Definition working_dirs : list string :=
  [inputRelPath; augRelPath; unaugRelPath; networkRelPath].

(** No regular file stands where a working directory (or the directory
    above it) is expected, seen from the current directory. *)
Definition unobstructed (w : World) : bool :=
  forallb (fun rel => negb (obstructed (resolve (cwd w) rel) (fs w))) working_dirs.

(** The working directories all exist, seen from the current directory. *)
Definition working_dirs_exist (cwd0 : string) (n : node) : bool :=
  forallb (fun rel => is_dir (resolve cwd0 rel) n) working_dirs.

(** The rehydration loop has nothing to do: no stored images, or none in
    the stored sequence. *)
Definition no_stored_images (st : gmap string pyval) : bool :=
  match st !! augImagesKey with
  | None => true
  | Some l => match py_len l with Ok 0 => true | _ => false end
  end.

(** What lines 58-60 pick: the stored network, or no byte at all. *)
Definition network_value (st : gmap string pyval) : pyval :=
  match st !! networkKey with
  | Some v => v
  | None => VBytes []
  end.

(** The regular files below a directory with their contents, in the
    order [os.walk] reaches them: those of the directory itself, then
    those of each subdirectory in turn. *)
Fixpoint tree_files (n : node) : list (string * bytes) :=
  match n with
  | File _ => []
  | Dir es =>
      flat_map (fun e => match snd e with File b => [(fst e, b)] | Dir _ => [] end) es
      ++ flat_map (fun e => tree_files (snd e)) es
  end.

(** The test of line 122 on a file name. *)
Definition keeps (file : string) : bool :=
  contains ("." +:+ standardImgFormat) file.

(** The paths lines 120-123 read, given what [os.walk] yielded. *)
Definition wanted (triples : list (string * list string * list string)) : list string :=
  flat_map (fun t => flat_map (fun file => if keeps file then [join (fst (fst t)) file] else [])
                              (snd t)) triples.

(** What the gatherer keeps of a directory tree: the content of every
    file whose name contains ".JPEG". *)
Definition gathered (n : node) : list pyval :=
  map (fun e => VBytes (snd e))
      (List.filter (fun e => contains ".JPEG" (fst e)) (tree_files n)).

(** The content of every file of the tree, whatever its name. *)
Definition all_contents (n : node) : list pyval :=
  map (fun e => VBytes (snd e)) (tree_files n).

(** The file line 99 saves the picture to. *)
Definition inputFile (E : Env) : string :=
  inputAbsPath E +:+ sep +:+ "input." +:+ standardImgFormat.

(** The command line 107 hands to [subprocess.run]. *)
Definition training_command (E : Env) : list string :=
  [scriptFileAbsPath E; "--network"; oldNetworkAbsPath E; "--save"; networkAbsPath E].

(** The world as [acceptImage] finds it once [verify()] has been called. *)
Definition verified (w : World) : World :=
  mkWorld (fs w) (cwd w) (c3 w) (stdout w) (calls w ++ [CallVerify]).

(* ================================================================== *)
(** ** Sample data *)

Module Sample.

Definition jpeg : bytes := [Byte.xff; Byte.xd8; Byte.xff; Byte.xd9].
Definition other_jpeg : bytes := [Byte.xff; Byte.xd8; Byte.x2a; Byte.xff; Byte.xd9].
Definition weights : bytes := [Byte.x01; Byte.x02; Byte.x03].
Definition notes : bytes := [Byte.x68; Byte.x69].

(** An object whose [verify()] returns [True]. *)
Definition picture : Image :=
  mkImage (Ok (VBool true)) (fun _ _ => Ok jpeg).

(** A PIL image of a sound file: [verify()] returns [None]. *)
Definition pil_picture : Image :=
  mkImage (Ok VNone) (fun _ _ => Ok jpeg).

(** A PIL image of a damaged file: [verify()] raises. *)
Definition broken_picture : Image :=
  mkImage (Raise (OtherError "broken data stream")) (fun _ _ => Ok jpeg).

(** An image whose verification is interrupted from the keyboard. *)
Definition interrupted_picture : Image :=
  mkImage (Raise (SystemExiting "KeyboardInterrupt")) (fun _ _ => Ok jpeg).

(** The module lives in /srv/app; PIL opens what it is given; the
    augmentation routine touches nothing; the training script, were it
    run, would exit with status 1. *)
Definition env : Env :=
  mkEnv "/srv/app"
        (fun _ => Ok pil_picture)
        (fun _ _ _ n => (Ok tt, n))
        (fun _ n => (Ok 1%Z, n)).

(** A new installation. *)
Definition bare_disk : node := Dir [("srv", Dir [("app", Dir [])])].

(** After a round of training: two augmented pictures, one of them in
    a subdirectory, a text file beside them, and both weight files. *)
Definition aug_tree : node :=
  Dir [("000001.JPEG", File jpeg);
       ("notes.txt", File notes);
       ("batch", Dir [("000002.JPEG", File other_jpeg)])].

Definition trained_disk : node :=
  Dir [("srv", Dir [("app", Dir [("tmp",
    Dir [("input", Dir []);
         ("aug_64x64", aug_tree);
         ("unaug_64x64", Dir []);
         ("network", Dir [("adversarial.net", File weights)])])])])].

(** The working directories are there, the augmented one is empty. *)
Definition emptied_disk : node :=
  Dir [("srv", Dir [("app", Dir [("tmp",
    Dir [("input", Dir []);
         ("aug_64x64", Dir []);
         ("unaug_64x64", Dir []);
         ("network", Dir [("adversarial.net", File weights)])])])])].

(** A regular file stands where the input directory should be. *)
Definition blocked_disk : node :=
  Dir [("srv", Dir [("app", Dir [("tmp", Dir [("input", File notes)])])])].

(** What the gatherer stored after a round of training. *)
Definition stored : gmap string pyval :=
  <[ "aug_images" := VList [VBytes jpeg] ]> (<[ "network" := VBytes weights ]> ∅).

Definition fresh : World := mkWorld bare_disk "/srv/app" (Some ∅) [] [].
Definition elsewhere : World := mkWorld bare_disk "/home/user" (Some ∅) [] [].
Definition trained : World := mkWorld trained_disk "/srv/app" (Some ∅) [] [].
Definition restarted : World := mkWorld emptied_disk "/srv/app" (Some stored) [] [].
Definition blocked : World := mkWorld blocked_disk "/srv/app" (Some ∅) [] [].
Definition reinstalled : World := mkWorld bare_disk "/srv/app" (Some stored) [] [].

End Sample.

(* ================================================================== *)
(** ** The SDK and [main] *)

(** The c3 SDK, by what [main] asks of it.  [NewC3()] hands back the
    service object ([Some st]: its [state] is [st]) or [None];
    [registerMethod] and [serve] are methods of that object and may do
    anything to the world. *)
Record Sdk : Type := mkSdk {
  NewC3 : World -> result (option (gmap string pyval)) * World;
  registerMethod : string -> World -> result unit * World;
  serve : World -> result unit * World
}.

(** The assignment [c3 = h] to the global. *)
Definition set_c3 (h : option (gmap string pyval)) (w : World) : World :=
  mkWorld (fs w) (cwd w) h (stdout w) (calls w).

(** A method call on the global [c3]: on [None] the attribute access
    fails. *)
Definition on_c3 {A} (method : M A) : M A :=
  fun w =>
    match c3 w with
    | Some _ => method w
    | None => (Raise AttributeError, w)
    end.

Section Main.

Variable S : Sdk.
Variable E : Env.

(** Lines 30-35. *)
Definition main : M unit :=
  load_global "sdk" ;;
  h <- NewC3 S ;;
  (fun w => (Ok tt, set_c3 h w)) ;;
  on_c3 (registerMethod S "acceptImage") ;;
  initState E ;;
  on_c3 (serve S).

End Main.

(** A computation that leaves the file system, the current directory,
    the printed lines and the log of external calls as they are,
    whether it returns or raises. *)
Definition reads_only {A} (m : M A) : Prop :=
  forall w,
    fs (snd (m w)) = fs w /\ cwd (snd (m w)) = cwd w
    /\ stdout (snd (m w)) = stdout w /\ calls (snd (m w)) = calls w.

(** More sample data. *)
Module Cases.

(** An SDK whose service object starts with the stored state of a
    trained service, whose registration does nothing, and whose serve
    loop, were it entered, would print a line and return. *)
Definition sdk : Sdk :=
  mkSdk (fun w => (Ok (Some Sample.stored), w))
        (fun _ w => (Ok tt, w))
        (fun w => (Ok tt, mkWorld (fs w) (cwd w) (c3 w)
                                  (stdout w ++ ["serving"]) (calls w))).

(** The process before [main] has run: no service object yet. *)
Definition unstarted : World := mkWorld Sample.bare_disk "/srv/app" None [] [].

(** A picture that cannot be encoded as JPEG. *)
Definition unencodable : Image :=
  mkImage (Ok (VBool true)) (fun _ _ => Raise (OtherError "cannot write mode P as JPEG")).

(** An augmentation routine that fails without touching the disk. *)
Definition failing_env : Env :=
  mkEnv "/srv/app"
        (fun _ => Ok Sample.pil_picture)
        (fun _ _ _ n => (Raise (OtherError "no face found"), n))
        (fun _ n => (Ok 0%Z, n)).

(** A state whose network is a text, not a byte string. *)
Definition text_network : gmap string pyval :=
  <[ "network" := VStr "weights" ]> ∅.

Definition mistyped : World :=
  mkWorld Sample.trained_disk "/srv/app" (Some text_network) [] [].

(** A trained service whose state also holds a key of another owner. *)
Definition annotated : World :=
  mkWorld Sample.trained_disk "/srv/app"
          (Some (<[ "owner" := VStr "alice" ]> Sample.stored)) [] [].

(** The weights are there, the augmented directory is not. *)
Definition no_aug_disk : node :=
  Dir [("srv", Dir [("app", Dir [("tmp",
    Dir [("network", Dir [("adversarial.net", File Sample.weights)])])])])].

Definition no_aug : World := mkWorld no_aug_disk "/srv/app" (Some Sample.stored) [] [].

(** An SDK that hands back no service object. *)
Definition absent_sdk : Sdk :=
  mkSdk (fun w => (Ok None, w)) (fun _ w => (Ok tt, w)) (fun w => (Ok tt, w)).

(** An environment like [Sample.env] whose training script, were it
    run, would exit with status 0. *)
Definition healthy_env : Env :=
  mkEnv "/srv/app"
        (fun _ => Ok Sample.pil_picture)
        (fun _ _ _ n => (Ok tt, n))
        (fun _ n => (Ok 0%Z, n)).


End Cases.

(* ================================================================== *)
(** * Properties *)

#[local] Arguments Ascii.eqb : simpl never.
#[local] Arguments String.eqb : simpl never.

(** ** Paths *)

Lemma split_not_nil s : split s <> [].
Proof.
  destruct s as [|c s]; simpl; [done|].
  destruct (is_sep c); [done|]. by destruct (split s).
Qed.

Lemma split_app_sep a b : split (a +:+ sep +:+ b) = (split a ++ split b)%list.
Proof.
  induction a as [|c a IH]; simpl; [done|].
  destruct (is_sep c); [by rewrite IH|].
  rewrite IH. pose proof (split_not_nil a) as Hn.
  by destruct (split a).
Qed.

Lemma components_app_sep a b :
  components (a +:+ sep +:+ b) = (components a ++ components b)%list.
Proof. unfold components. rewrite split_app_sep. apply List.filter_app. Qed.

Lemma contains_sep_cons c s : contains sep (String c s) = is_sep c || contains sep s.
Proof.
  simpl. unfold is_sep. rewrite (Ascii.eqb_sym c). by rewrite andb_true_r.
Qed.

Lemma split_no_sep s : contains sep s = false -> split s = [s].
Proof.
  induction s as [|c s IH]; [done|].
  rewrite contains_sep_cons. intros [Hc Hs]%orb_false_iff.
  simpl. by rewrite Hc, (IH Hs).
Qed.

Lemma components_valid_name s : valid_name s = true -> components s = [s].
Proof.
  unfold valid_name. intros [Hne Hs]%andb_true_iff.
  apply negb_true_iff in Hs. unfold components. rewrite (split_no_sep _ Hs).
  simpl. by rewrite Hne.
Qed.

Lemma valid_name_not_abs s : valid_name s = true -> is_abs s = false.
Proof.
  unfold valid_name, is_abs. intros [_ Hs]%andb_true_iff.
  apply negb_true_iff in Hs. destruct s as [|c s]; [done|].
  rewrite contains_sep_cons in Hs. apply orb_false_iff in Hs as [Hc _].
  simpl. unfold is_sep in Hc. rewrite Ascii.eqb_sym in Hc. by rewrite Hc.
Qed.

Lemma ends_with_sep_inv a :
  ends_with_sep a = true -> exists a', a = a' +:+ sep.
Proof.
  induction a as [|c a IH]; [done|]. simpl.
  destruct a as [|c' a].
  - unfold is_sep. intros ->%Ascii.eqb_eq. by exists "".
  - intros [a' Ha']%IH. exists (String c a'). by rewrite Ha'.
Qed.

Lemma components_sep_end a : components (a +:+ sep) = components a.
Proof.
  change (a +:+ sep) with (a +:+ sep +:+ "").
  rewrite components_app_sep. apply app_nil_r.
Qed.

Lemma string_app_assoc (a b c : string) : (a +:+ b) +:+ c = a +:+ (b +:+ c).
Proof.
  induction a as [|x a IH]; [done|].
  change (String x ((a +:+ b) +:+ c) = String x (a +:+ b +:+ c)). by rewrite IH.
Qed.

(** [os.path.join] appends one component. *)
Lemma components_join a b :
  valid_name b = true -> components (join a b) = (components a ++ [b])%list.
Proof.
  intros Hb. unfold join. rewrite (valid_name_not_abs _ Hb).
  destruct (String.eqb_spec a "") as [->|Ha]; simpl.
  - by apply components_valid_name.
  - destruct (ends_with_sep a) eqn:He.
    + destruct (ends_with_sep_inv _ He) as [a' ->].
      rewrite string_app_assoc, components_app_sep, components_sep_end.
      by rewrite (components_valid_name _ Hb).
    + rewrite components_app_sep. by rewrite (components_valid_name _ Hb).
Qed.

Lemma is_abs_app a b : is_abs a = true -> is_abs (a +:+ b) = true.
Proof. unfold is_abs. destruct a as [|c a]; [done|]. simpl. by rewrite !andb_true_r. Qed.

(** A path anchored at an absolute directory resolves the same from
    every current directory. *)
Lemma resolve_anchored d cwd0 rel :
  is_abs d = true ->
  resolve cwd0 (d +:+ sep +:+ rel) = (components d ++ components rel)%list.
Proof.
  intros Hd. unfold resolve. rewrite (is_abs_app _ _ Hd). apply components_app_sep.
Qed.

(** ** Directory entries *)

Lemma assoc_put_eq k v es : assoc k (assoc_put k v es) = Some v.
Proof.
  induction es as [|[k' v'] es IH]; simpl.
  - by rewrite String.eqb_refl.
  - destruct (String.eqb_spec k k') as [->|Hne]; simpl.
    + by rewrite String.eqb_refl.
    + by destruct (String.eqb_spec k k').
Qed.

Lemma assoc_put_ne k k' v es : k' <> k -> assoc k' (assoc_put k v es) = assoc k' es.
Proof.
  intros Hne. induction es as [|[k0 v0] es IH]; simpl.
  - by destruct (String.eqb_spec k' k).
  - destruct (String.eqb_spec k k0) as [->|Hk]; simpl.
    + by destruct (String.eqb_spec k' k0).
    + by rewrite IH.
Qed.

Lemma assoc_put_put k v1 v2 es :
  assoc_put k v2 (assoc_put k v1 es) = assoc_put k v2 es.
Proof.
  induction es as [|[k0 v0] es IH]; simpl.
  - by rewrite String.eqb_refl.
  - destruct (String.eqb_spec k k0) as [->|Hk]; simpl.
    + by rewrite String.eqb_refl.
    + destruct (String.eqb_spec k k0); [done|]. by rewrite IH.
Qed.

Lemma assoc_app_new k v es : assoc k es = None -> assoc k (es ++ [(k, v)]) = Some v.
Proof.
  induction es as [|[k0 v0] es IH]; simpl.
  - by rewrite String.eqb_refl.
  - by destruct (String.eqb_spec k k0).
Qed.

Lemma assoc_app_old k k' v es : k' <> k -> assoc k' (es ++ [(k, v)]) = assoc k' es.
Proof.
  intros Hne. induction es as [|[k0 v0] es IH]; simpl.
  - by destruct (String.eqb_spec k' k).
  - by rewrite IH.
Qed.

(** ** The file system *)

Lemma find_fresh_dirs p : find p (fresh_dirs p) = Ok (Dir []).
Proof. induction p as [|c p IH]; simpl; [done|]. by rewrite String.eqb_refl. Qed.

(** Where no file is in the way, what exists at a path is a directory. *)
Lemma find_unobstructed p n m :
  obstructed p n = false -> find p n = Ok m -> exists es, m = Dir es.
Proof.
  revert n. induction p as [|c p IH]; intros [b|es]; simpl; try done.
  - intros _ [= <-]. by exists es.
  - destruct (assoc c es) as [m'|]; [|done]. apply IH.
Qed.

Lemma path_exists_is_dir p n :
  obstructed p n = false -> path_exists p n = true -> is_dir p n = true.
Proof.
  unfold path_exists, is_dir. intros Ho. destruct (find p n) as [m|] eqn:Hf; [|done].
  destruct (find_unobstructed _ _ _ Ho Hf) as [es ->]. done.
Qed.

Lemma is_dir_path_exists p n : is_dir p n = true -> path_exists p n = true.
Proof. unfold path_exists, is_dir. by destruct (find p n). Qed.

(** [os.makedirs] succeeds on a missing, unobstructed path and leaves a
    directory there. *)
Lemma mkdirs_creates p n :
  obstructed p n = false -> path_exists p n = false ->
  exists n', mkdirs p n = Ok n' /\ is_dir p n' = true.
Proof.
  unfold path_exists, is_dir.
  revert n. induction p as [|c p IH]; intros [b|es]; simpl; try done.
  destruct (assoc c es) as [m|] eqn:Hc.
  - intros Ho Hf. destruct (IH m Ho Hf) as (m' & -> & Hd).
    eexists; split; [done|]. simpl. by rewrite assoc_put_eq.
  - intros _ _. eexists; split; [done|]. simpl.
    by rewrite (assoc_app_new _ _ _ Hc), find_fresh_dirs.
Qed.

(** It removes no directory... *)
Lemma mkdirs_keeps_dirs p q n n' :
  mkdirs p n = Ok n' -> is_dir q n = true -> is_dir q n' = true.
Proof.
  unfold is_dir.
  revert q n n'. induction p as [|c p IH]; intros q [b|es] n'; simpl; try done.
  destruct (assoc c es) as [m|] eqn:Hc.
  - destruct (mkdirs p m) as [m'|] eqn:Hm; [|done]. intros [= <-].
    destruct q as [|c' q]; simpl; [done|].
    destruct (String.eqb_spec c' c) as [->|Hne].
    + rewrite Hc, assoc_put_eq. by apply IH.
    + by rewrite (assoc_put_ne _ _ _ _ Hne).
  - intros [= <-]. destruct q as [|c' q]; simpl; [done|].
    destruct (String.eqb_spec c' c) as [->|Hne].
    + by rewrite Hc.
    + by rewrite (assoc_app_old _ _ _ _ Hne).
Qed.

(** ... and puts no file in the way of another path. *)
Lemma mkdirs_keeps_unobstructed p q n n' :
  mkdirs p n = Ok n' -> obstructed q n = false -> obstructed q n' = false.
Proof.
  revert q n n'. induction p as [|c p IH]; intros q [b|es] n'; simpl; try done.
  destruct (assoc c es) as [m|] eqn:Hc.
  - destruct (mkdirs p m) as [m'|] eqn:Hm; [|done]. intros [= <-].
    destruct q as [|c' q]; simpl; [done|].
    destruct (String.eqb_spec c' c) as [->|Hne].
    + rewrite Hc, assoc_put_eq. by apply IH.
    + by rewrite (assoc_put_ne _ _ _ _ Hne).
  - intros [= <-]. destruct q as [|c' q]; simpl; [done|].
    destruct (String.eqb_spec c' c) as [->|Hne].
    + rewrite Hc, (assoc_app_new _ _ _ Hc). intros _.
      clear. revert q. induction p as [|c p IH]; intros [|c' q]; simpl; try done.
      destruct (String.eqb_spec c' c); [apply IH|done].
    + by rewrite (assoc_app_old _ _ _ _ Hne).
Qed.

(** Writing a file removes no directory. *)
Lemma put_file_keeps_dirs p b q n n' :
  put_file p b n = Ok n' -> is_dir q n = true -> is_dir q n' = true.
Proof.
  unfold is_dir.
  revert q n n'. induction p as [|c p IH]; intros q [d|es] n'; simpl; try done.
  destruct p as [|c2 p].
  - destruct (assoc c es) as [[d|es']|] eqn:Hc; try done; intros [= <-];
      (destruct q as [|c' q]; simpl; [done|]);
      (destruct (String.eqb_spec c' c) as [->|Hne];
       [rewrite Hc; by destruct q | by rewrite (assoc_put_ne _ _ _ _ Hne)]).
  - destruct (assoc c es) as [m|] eqn:Hc; [|done].
    destruct (put_file (c2 :: p) b m) as [m'|] eqn:Hm; [|done]. intros [= <-].
    destruct q as [|c' q]; simpl; [done|].
    destruct (String.eqb_spec c' c) as [->|Hne].
    + rewrite Hc, assoc_put_eq. by apply IH.
    + by rewrite (assoc_put_ne _ _ _ _ Hne).
Qed.

Lemma put_file_below c c2 p b es :
  put_file (c :: c2 :: p) b (Dir es)
  = match assoc c es with
    | None => Raise FileNotFoundError
    | Some m =>
        match put_file (c2 :: p) b m with
        | Ok m' => Ok (Dir (assoc_put c m' es))
        | Raise e => Raise e
        end
    end.
Proof. reflexivity. Qed.

(** The last write wins. *)
Lemma put_file_twice p b1 b2 n n1 :
  put_file p b1 n = Ok n1 -> put_file p b2 n1 = put_file p b2 n.
Proof.
  revert n n1. induction p as [|c p IH]; intros [d|es] n1; try done.
  destruct p as [|c2 p].
  - simpl. destruct (assoc c es) as [[d|es']|] eqn:Hc; try done; intros [= <-]; simpl;
      by rewrite assoc_put_eq, assoc_put_put.
  - rewrite put_file_below.
    destruct (assoc c es) as [m|] eqn:Hc; [|done].
    destruct (put_file (c2 :: p) b1 m) as [m'|] eqn:Hm; [|done]. intros [= <-].
    rewrite !put_file_below, assoc_put_eq, Hc, (IH _ _ Hm).
    destruct (put_file (c2 :: p) b2 m); [|done]. by rewrite assoc_put_put.
Qed.

(** A file can be written where its directory exists and no directory
    has its name. *)
Lemma put_file_ok q name b n :
  is_dir q n = true -> is_dir (q ++ [name]) n = false ->
  exists n', put_file (q ++ [name]) b n = Ok n'.
Proof.
  unfold is_dir. revert n. induction q as [|c q IH]; intros [d|es]; simpl; try done.
  - intros _. destruct (assoc name es) as [[d|es']|]; by eauto.
  - destruct (assoc c es) as [m|]; [|done]. intros Hq Hn.
    destruct (IH m Hq Hn) as [m' Hm'].
    destruct (q ++ [name])%list as [|c2 p] eqn:Hp; [by destruct q|].
    rewrite Hm'. by eauto.
Qed.

(** What was written is what is read. *)
Lemma get_put_file p b n n' : put_file p b n = Ok n' -> get_file p n' = Ok b.
Proof.
  unfold get_file.
  revert n n'. induction p as [|c p IH]; intros [d|es] n'; try done.
  destruct p as [|c2 p].
  - simpl. destruct (assoc c es) as [[d|es']|] eqn:Hc; try done; intros [= <-]; simpl;
      by rewrite assoc_put_eq.
  - rewrite put_file_below.
    destruct (assoc c es) as [m|] eqn:Hc; [|done].
    destruct (put_file (c2 :: p) b m) as [m'|] eqn:Hm; [|done]. intros [= <-].
    change (find (c :: c2 :: p) (Dir (assoc_put c m' es)))
      with (match assoc c (assoc_put c m' es) with
            | None => Raise FileNotFoundError
            | Some m0 => find (c2 :: p) m0
            end).
    rewrite assoc_put_eq. exact (IH _ _ Hm).
Qed.

(** ** The monad *)

Lemma bind_ok {A B} (m : M A) (k : A -> M B) w a w' :
  m w = (Ok a, w') -> bind m k w = k a w'.
Proof. unfold bind. by intros ->. Qed.

Lemma bind_raise {A B} (m : M A) (k : A -> M B) w e w' :
  m w = (Raise e, w') -> bind m k w = (Raise e, w').
Proof. unfold bind. by intros ->. Qed.

Lemma set_fs_same w : set_fs (fs w) w = w.
Proof. by destruct w. Qed.

Lemma set_fs_twice n n' w : set_fs n' (set_fs n w) = set_fs n' w.
Proof. done. Qed.

(** ** Lines 43-50: the working directories *)

Lemma os_path_exists_eq p w :
  os_path_exists p w = (Ok (path_exists (resolve (cwd w) p) (fs w)), w).
Proof. reflexivity. Qed.

Lemma os_makedirs_eq p w :
  os_makedirs p w
  = match mkdirs (resolve (cwd w) p) (fs w) with
    | Ok n => (Ok tt, set_fs n w)
    | Raise e => (Raise e, w)
    end.
Proof. reflexivity. Qed.

(** One directory: afterwards it exists, every directory that existed
    still does, no path got obstructed, and nothing changed when the
    directory was there already. *)
Lemma ensure_dir_spec p w :
  obstructed (resolve (cwd w) p) (fs w) = false ->
  exists n,
    ensure_dir p w = (Ok tt, set_fs n w)
    /\ is_dir (resolve (cwd w) p) n = true
    /\ (forall q, is_dir q (fs w) = true -> is_dir q n = true)
    /\ (forall q, obstructed q (fs w) = false -> obstructed q n = false)
    /\ (is_dir (resolve (cwd w) p) (fs w) = true -> n = fs w).
Proof.
  intros Ho. unfold ensure_dir.
  rewrite (bind_ok _ _ _ _ _ (os_path_exists_eq p w)).
  destruct (path_exists (resolve (cwd w) p) (fs w)) eqn:He.
  - exists (fs w). rewrite set_fs_same. split; [done|].
    split; [by apply path_exists_is_dir|]. done.
  - destruct (mkdirs_creates _ _ Ho He) as (n & Hm & Hd).
    exists n. rewrite os_makedirs_eq, Hm. split; [done|]. split; [done|].
    split; [intros q; by apply mkdirs_keeps_dirs with (p := resolve (cwd w) p)|].
    split; [intros q; by apply mkdirs_keeps_unobstructed with (p := resolve (cwd w) p)|].
    intros Hd'. apply is_dir_path_exists in Hd'. congruence.
Qed.

Lemma for_each_ensure_dir l w :
  forallb (fun rel => negb (obstructed (resolve (cwd w) rel) (fs w))) l = true ->
  exists n,
    for_each l ensure_dir w = (Ok tt, set_fs n w)
    /\ forallb (fun rel => is_dir (resolve (cwd w) rel) n) l = true
    /\ (forall q, is_dir q (fs w) = true -> is_dir q n = true)
    /\ (forallb (fun rel => is_dir (resolve (cwd w) rel) (fs w)) l = true -> n = fs w).
Proof.
  revert w. induction l as [|p l IH]; intros w; simpl.
  - intros _. exists (fs w). by rewrite set_fs_same.
  - intros [Hp Hl]%andb_true_iff. apply negb_true_iff in Hp.
    destruct (ensure_dir_spec p w Hp) as (n1 & Hrun & Hd & Hkeep & Hfree & Hsame).
    destruct (IH (set_fs n1 w)) as (n2 & Hrun2 & Hd2 & Hkeep2 & Hsame2).
    { simpl. apply forallb_forall. intros rel Hrel.
      apply negb_true_iff, Hfree, negb_true_iff.
      by apply (proj1 (forallb_forall _ _) Hl). }
    exists n2. simpl in *.
    rewrite (bind_ok _ _ _ _ _ Hrun), Hrun2. split; [done|].
    split; [by rewrite Hd2, (Hkeep2 _ Hd)|].
    split; [intros q Hq; by apply Hkeep2, Hkeep|].
    intros [H1 H2]%andb_true_iff. specialize (Hsame H1). subst n1.
    by apply Hsame2.
Qed.

Lemma initState_dirs_for_each w :
  initState_dirs w = for_each working_dirs ensure_dir w.
Proof.
  unfold initState_dirs, working_dirs. simpl. unfold bind.
  repeat (match goal with |- context [ensure_dir ?p ?w] =>
            destruct (ensure_dir p w) as [[[]|?] ?]; try done end).
Qed.

Lemma initState_dirs_spec w :
  unobstructed w = true ->
  exists n,
    initState_dirs w = (Ok tt, set_fs n w)
    /\ working_dirs_exist (cwd w) n = true
    /\ (forall q, is_dir q (fs w) = true -> is_dir q n = true)
    /\ (working_dirs_exist (cwd w) (fs w) = true -> n = fs w).
Proof. rewrite initState_dirs_for_each. apply for_each_ensure_dir. Qed.

Lemma ensure_dir_present p w :
  is_dir (resolve (cwd w) p) (fs w) = true -> ensure_dir p w = (Ok tt, w).
Proof.
  intros Hd. unfold ensure_dir.
  rewrite (bind_ok _ _ _ _ _ (os_path_exists_eq p w)).
  by rewrite (is_dir_path_exists _ _ Hd).
Qed.

(** Create-if-absent: with the four directories in place the block
    changes nothing and raises nothing. *)
Lemma initState_dirs_present w :
  working_dirs_exist (cwd w) (fs w) = true -> initState_dirs w = (Ok tt, w).
Proof.
  unfold working_dirs_exist, working_dirs. simpl.
  rewrite !andb_true_iff. intros (H1 & H2 & H3 & H4 & _).
  unfold initState_dirs.
  rewrite (bind_ok _ _ _ _ _ (ensure_dir_present _ _ H1)).
  rewrite (bind_ok _ _ _ _ _ (ensure_dir_present _ _ H2)).
  rewrite (bind_ok _ _ _ _ _ (ensure_dir_present _ _ H3)).
  by apply ensure_dir_present.
Qed.

(** ** Lines 52-56: the stored images *)

Section Startup.

Variable E : Env.

Lemma imageFromBytes_eq b w :
  imageFromBytes E b w
  = (Image_open E b,
     mkWorld (fs w) (cwd w) (c3 w) (stdout w) (calls w ++ [CallOpen b])).
Proof. reflexivity. Qed.

(** A turn of the loop never completes: when the entry is read and
    opened, building the file name adds an integer to a string.  Nothing
    is written. *)
Lemma rehydrate_raises idx w :
  exists e w',
    rehydrate E idx w = (Raise e, w')
    /\ fs w' = fs w /\ c3 w' = c3 w /\ cwd w' = cwd w /\ stdout w' = stdout w.
Proof.
  unfold rehydrate, state_getitem, get_state, bind at 1 2.
  destruct (c3 w) as [st|] eqn:Hc; [|by eauto 10].
  destruct (st !! augImagesKey) as [l|]; [|by eauto 10]. simpl.
  unfold bind at 1, lift at 1.
  destruct (py_getitem l idx) as [b|e]; [|by eauto 10].
  unfold bind at 1. rewrite imageFromBytes_eq.
  destruct (Image_open E b) as [im|e]; [|by eauto 10].
  simpl. by eauto 10.
Qed.

Lemma state_contains_eq key w st :
  c3 w = Some st ->
  state_contains key w = (Ok (bool_decide (is_Some (st !! key))), w).
Proof. unfold state_contains, get_state, bind, ret. by intros ->. Qed.

Lemma state_getitem_eq key w st v :
  c3 w = Some st -> st !! key = Some v -> state_getitem key w = (Ok v, w).
Proof. unfold state_getitem, get_state, bind, ret. by intros -> ->. Qed.

(** The block passes, changing nothing, exactly when there is no stored
    image; otherwise it raises, and the file system is left as it was. *)
Lemma initState_images_spec w st :
  c3 w = Some st ->
  if no_stored_images st then initState_images E w = (Ok tt, w)
  else exists e w',
      initState_images E w = (Raise e, w')
      /\ fs w' = fs w /\ c3 w' = c3 w /\ cwd w' = cwd w /\ stdout w' = stdout w.
Proof.
  intros Hc. unfold no_stored_images, initState_images.
  rewrite (bind_ok _ _ _ _ _ (state_contains_eq _ _ _ Hc)).
  destruct (st !! augImagesKey) as [l|] eqn:Hl.
  - rewrite bool_decide_eq_true_2 by eauto.
    rewrite (bind_ok _ _ _ _ _ (state_getitem_eq _ _ _ _ Hc Hl)).
    destruct (py_len l) as [[|n]|e]; [done| |by eauto 10].
    destruct (rehydrate_raises 0 w) as (e & w' & Hr & Hrest).
    exists e, w'. split; [|done].
    change ((rehydrate E 0 ;; for_each (seq 1 n) (rehydrate E)) w = (Raise e, w')).
    by rewrite (bind_raise _ _ _ _ _ Hr).
  - rewrite bool_decide_eq_false_2; [done|]. by intros [? ?].
Qed.

(** ** Lines 58-62 and 64-67: the stored network *)

Lemma write_file_eq p b w :
  write_file p b w
  = match put_file (resolve (cwd w) p) b (fs w) with
    | Ok n => (Ok tt, set_fs n w)
    | Raise e => (Raise e, w)
    end.
Proof. reflexivity. Qed.

Lemma initState_network_eq w st :
  c3 w = Some st ->
  initState_network E w = writeBytesToFile (network_value st) (oldNetworkAbsPath E) w.
Proof.
  intros Hc. unfold initState_network, network_value.
  rewrite (bind_ok _ _ _ _ _ (state_contains_eq _ _ _ Hc)).
  destruct (st !! networkKey) as [v|] eqn:Hv.
  - rewrite bool_decide_eq_true_2 by eauto.
    by rewrite (bind_ok _ _ _ _ _ (state_getitem_eq _ _ _ _ Hc Hv)).
  - rewrite bool_decide_eq_false_2; [done|]. by intros [? ?].
Qed.

Lemma writeBytesToFile_eq v p w :
  writeBytesToFile v p w
  = match put_file (resolve (cwd w) p) [] (fs w) with
    | Raise e => (Raise e, w)
    | Ok n1 =>
        match v with
        | VBytes d =>
            match put_file (resolve (cwd w) p) d n1 with
            | Ok n2 => (Ok tt, set_fs n2 w)
            | Raise e => (Raise e, set_fs n1 w)
            end
        | _ => (Raise TypeError, set_fs n1 w)
        end
    end.
Proof.
  unfold writeBytesToFile, bind. rewrite write_file_eq.
  destruct (put_file (resolve (cwd w) p) [] (fs w)) as [n1|e]; [|done].
  by destruct v.
Qed.

Lemma writeBytesToFile_frame v p w :
  let w' := snd (writeBytesToFile v p w) in
  (forall q, is_dir q (fs w) = true -> is_dir q (fs w') = true)
  /\ cwd w' = cwd w /\ c3 w' = c3 w /\ stdout w' = stdout w /\ calls w' = calls w.
Proof.
  rewrite writeBytesToFile_eq.
  destruct (put_file (resolve (cwd w) p) [] (fs w)) as [n1|e] eqn:H1; [|done].
  assert (forall q, is_dir q (fs w) = true -> is_dir q n1 = true) as K1
    by (intros q; by apply put_file_keeps_dirs with (p := resolve (cwd w) p) (b := [])).
  destruct v as [|?|?|?|d|?]; try done.
  destruct (put_file (resolve (cwd w) p) d n1) as [n2|e] eqn:H2; [|done].
  simpl. split; [|done]. intros q Hq.
  apply put_file_keeps_dirs with (p := resolve (cwd w) p) (b := d) (n := n1); auto.
Qed.

(** Writing the same value to the same file again changes nothing. *)
Lemma writeBytesToFile_again v p w :
  fs (snd (writeBytesToFile v p (snd (writeBytesToFile v p w))))
  = fs (snd (writeBytesToFile v p w)).
Proof.
  rewrite (writeBytesToFile_eq v p w).
  destruct (put_file (resolve (cwd w) p) [] (fs w)) as [n1|e] eqn:H1.
  - assert (put_file (resolve (cwd w) p) [] n1 = Ok n1) as H11
      by (by rewrite (put_file_twice _ _ _ _ _ H1)).
    destruct v as [|?|?|?|d|?];
      try (rewrite writeBytesToFile_eq; simpl; by rewrite H11).
    destruct (put_file (resolve (cwd w) p) d n1) as [n2|e] eqn:H2;
      rewrite writeBytesToFile_eq; simpl.
    + by rewrite (put_file_twice _ _ _ _ _ H2), H11, H2.
    + by rewrite H11, H2.
  - rewrite writeBytesToFile_eq. simpl. by rewrite H1.
Qed.

End Startup.

(** ** Lines 114-123: the gatherer *)

(** Induction on directory trees. *)
Lemma node_induction (P : node -> Prop) :
  (forall b, P (File b)) ->
  (forall es, Forall (fun e => P (snd e)) es -> P (Dir es)) ->
  forall n, P n.
Proof.
  intros HF HD. fix IH 1. intros [b|es]; [apply HF|]. apply HD.
  induction es as [|[k v] es IHes]; constructor; [apply IH|apply IHes].
Qed.

Lemma find_app p q n :
  find (p ++ q) n = match find p n with Ok m => find q m | Raise e => Raise e end.
Proof.
  revert n. induction p as [|c p IH]; intros n; simpl; [done|].
  destruct n as [b|es]; [done|]. by destruct (assoc c es).
Qed.

(** In a directory with distinct names, looking a name up finds the
    entry that carries it. *)
Lemma assoc_elem k v es :
  NoDup (map fst es) -> (k, v) ∈ es -> assoc k es = Some v.
Proof.
  induction es as [|[k0 v0] es IH]; simpl.
  - by intros _ ?%elem_of_nil.
  - intros [Hk0 Hnd]%NoDup_cons [[= -> ->]|Hin]%elem_of_cons.
    + by rewrite String.eqb_refl.
    + destruct (String.eqb_spec k k0) as [->|Hne]; [|by apply IH].
      exfalso. apply Hk0. apply list_elem_of_fmap. by exists (k0, v).
Qed.

(** A joined path resolves to the directory's path plus the name. *)
Lemma resolve_join cwd0 a b :
  valid_name b = true -> resolve cwd0 (join a b) = (resolve cwd0 a ++ [b])%list.
Proof.
  intros Hb. unfold resolve. rewrite (components_join _ _ Hb).
  assert (is_abs (join a b) = is_abs a) as ->; [|destruct (is_abs a); by rewrite ?app_assoc].
  unfold join. rewrite (valid_name_not_abs _ Hb).
  destruct a as [|c a]; [by apply valid_name_not_abs|].
  match goal with |- context [if ?t then _ else _] => destruct t end; reflexivity.
Qed.

Lemma wf_dir es :
  wf (Dir es) = true ->
  Forall (fun e => valid_name (fst e) = true /\ wf (snd e) = true) es
  /\ NoDup (map fst es).
Proof.
  simpl. rewrite !andb_true_iff. intros [[Hv Hnd%bool_decide_eq_true] Hw].
  split; [|done]. apply Forall_forall. intros [k v] Hin. split.
  - apply (proj1 (forallb_forall _ _) Hv). apply list_elem_of_In.
    apply list_elem_of_fmap. by exists (k, v).
  - apply (proj1 (forallb_forall _ _) Hw (k, v)). by apply list_elem_of_In.
Qed.

Lemma wanted_app t1 t2 : wanted (t1 ++ t2) = (wanted t1 ++ wanted t2)%list.
Proof. unfold wanted. apply flat_map_app. Qed.

Section Reading.

Variable cw : string.     (* the current directory *)
Variable root : node.     (* the file system *)

(** Reading [path] gives [b]. *)
Let reads (path : string) (b : bytes) : Prop :=
  get_file (resolve cw path) root = Ok b.

Lemma reads_entry top q es name b :
  resolve cw top = q -> find q root = Ok (Dir es) -> wf (Dir es) = true ->
  (name, File b) ∈ es -> reads (join top name) b.
Proof.
  intros Hq Hf [Hes Hnd]%wf_dir Hin. unfold reads, get_file.
  destruct (proj1 (Forall_forall _ _) Hes _ Hin) as [Hname _]. simpl in Hname.
  rewrite (resolve_join _ _ _ Hname), Hq, find_app, Hf. simpl.
  by rewrite (assoc_elem _ _ _ Hnd Hin).
Qed.

(** Every path the loop reads holds a kept file of the tree, and the
    loop meets them in the order of [tree_files]. *)
Lemma walk_reads n :
  forall top q,
    wf n = true -> resolve cw top = q -> find q root = Ok n ->
    Forall2 reads (wanted (walk top n))
            (map snd (List.filter (fun e => keeps (fst e)) (tree_files n))).
Proof.
  induction n as [b|es IH] using node_induction; intros top q Hwf Hq Hf.
  { constructor. }
  pose proof Hwf as [Hes Hnd]%wf_dir.
  change (walk top (Dir es))
    with ((top, subdirs es, nondirs es)
            :: flat_map (fun e => match snd e with
                                  | Dir _ => walk (join top (fst e)) (snd e)
                                  | File _ => []
                                  end) es).
  change (wanted ((top, subdirs es, nondirs es) :: ?T))
    with ((flat_map (fun file => if keeps file then [join top file] else [])
                    (nondirs es) ++ wanted T)%list).
  change (tree_files (Dir es))
    with ((flat_map (fun e => match snd e with File b => [(fst e, b)] | Dir _ => [] end) es
           ++ flat_map (fun e => tree_files (snd e)) es)%list).
  rewrite List.filter_app, map_app. apply Forall2_app.
  - (* the files of the directory itself *)
    assert (forall l, (forall e, e ∈ l -> e ∈ es) ->
      Forall2 reads
        (flat_map (fun file => if keeps file then [join top file] else []) (nondirs l))
        (map snd (List.filter (fun e => keeps (fst e))
           (flat_map (fun e => match snd e with File b => [(fst e, b)] | Dir _ => [] end) l))))
      as Hsub; [|by apply Hsub].
    induction l as [|[name [b|es']] l IHl]; intros Hl; simpl.
    + constructor.
    + destruct (keeps name) eqn:Hk; simpl.
      * constructor.
        -- apply reads_entry with (q := q) (es := es); auto.
           apply Hl. by left.
        -- apply IHl. intros e He. apply Hl. by right.
      * apply IHl. intros e He. apply Hl. by right.
    + apply IHl. intros e He. apply Hl. by right.
  - (* the subdirectories, in turn *)
    assert (forall l, (forall e, e ∈ l -> e ∈ es) ->
      Forall2 reads
        (wanted (flat_map (fun e => match snd e with
                                    | Dir _ => walk (join top (fst e)) (snd e)
                                    | File _ => []
                                    end) l))
        (map snd (List.filter (fun e => keeps (fst e))
           (flat_map (fun e => tree_files (snd e)) l))))
      as Hsub; [|by apply Hsub].
    induction l as [|[name m] l IHl]; intros Hl.
    + constructor.
    + change (flat_map ?f ((name, m) :: l)) with ((f (name, m) ++ flat_map f l)%list).
      rewrite wanted_app, List.filter_app, map_app. apply Forall2_app.
      * assert ((name, m) ∈ es) as Hin by (apply Hl; by left).
        destruct (proj1 (Forall_forall _ _) Hes _ Hin) as [Hname Hwfm].
        simpl in Hname, Hwfm. simpl.
        destruct m as [b|es']; [constructor|].
        apply (proj1 (Forall_forall _ _) IH _ Hin (join top name) (q ++ [name])%list); auto.
        -- by rewrite (resolve_join _ _ _ Hname), Hq.
        -- rewrite find_app, Hf. simpl. by rewrite (assoc_elem _ _ _ Hnd Hin).
      * apply IHl. intros e He. apply Hl. by right.
Qed.

End Reading.

Lemma set_state_twice st st' w : set_state st' (set_state st w) = set_state st' w.
Proof. done. Qed.

Lemma set_state_same st w : c3 w = Some st -> set_state st w = w.
Proof. destruct w. simpl. by intros ->. Qed.

Lemma state_setitem_eq key v w st :
  c3 w = Some st -> state_setitem key v w = (Ok tt, set_state (<[key := v]> st) w).
Proof. unfold state_setitem, get_state, bind. by intros ->. Qed.

Lemma state_append_eq key x w st xs :
  c3 w = Some st -> st !! key = Some (VList xs) ->
  state_append key x w = (Ok tt, set_state (<[key := VList (xs ++ [x])]> st) w).
Proof.
  intros Hc Hk. unfold state_append.
  rewrite (bind_ok _ _ _ _ _ (state_getitem_eq _ _ _ _ Hc Hk)).
  by apply state_setitem_eq.
Qed.

(** The inner loop appends what it reads, in order. *)
Lemma keep_files_run st1 r f :
  forall acc w bs,
    c3 w = Some (<[augImagesKey := VList acc]> st1) ->
    Forall2 (fun path b => get_file (resolve (cwd w) path) (fs w) = Ok b)
            (flat_map (fun file => if keeps file then [join r file] else []) f) bs ->
    for_each f (keep_file r) w
    = (Ok tt, set_state (<[augImagesKey := VList (acc ++ map VBytes bs)]> st1) w).
Proof.
  induction f as [|file f IH]; intros acc w bs Hc Hbs.
  - apply Forall2_nil_inv_l in Hbs as ->. simpl.
    by rewrite app_nil_r, (set_state_same _ _ Hc).
  - change (for_each (file :: f) (keep_file r) w)
      with ((keep_file r file ;; for_each f (keep_file r)) w).
    simpl in Hbs. unfold keep_file at 1. fold (keeps file).
    destruct (keeps file) eqn:Hk.
    + apply Forall2_cons_inv_l in Hbs as (b & bs' & Hb & Hbs' & ->).
      assert ((_ <- state_getitem augImagesKey ;;
               b0 <- readBytesFromFile (join r file) ;;
               state_append augImagesKey (VBytes b0)) w
              = (Ok tt, set_state (<[augImagesKey := VList (acc ++ [VBytes b])]> st1) w))
        as Hstep.
      { rewrite (bind_ok _ _ _ _ _
                   (state_getitem_eq _ _ _ _ Hc (lookup_insert_eq _ _ _))).
        assert (readBytesFromFile (join r file) w = (Ok b, w)) as Hread
          by (unfold readBytesFromFile, read_file; by rewrite Hb).
        rewrite (bind_ok _ _ _ _ _ Hread).
        rewrite (state_append_eq _ _ _ _ _ Hc (lookup_insert_eq _ _ _)).
        by rewrite insert_insert_eq. }
      rewrite (bind_ok _ _ _ _ _ Hstep).
      rewrite (IH (acc ++ [VBytes b])%list _ bs'); [|done|done].
      by rewrite set_state_twice, <- app_assoc.
    + change ((ret tt ;; for_each f (keep_file r)) w) with (for_each f (keep_file r) w).
      by apply IH.
Qed.

(** So does the whole loop over what [os.walk] yielded. *)
Lemma gather_loop st1 triples :
  forall acc w bs,
    c3 w = Some (<[augImagesKey := VList acc]> st1) ->
    Forall2 (fun path b => get_file (resolve (cwd w) path) (fs w) = Ok b)
            (wanted triples) bs ->
    for_each triples (fun '(r, d, f) => for_each f (keep_file r)) w
    = (Ok tt, set_state (<[augImagesKey := VList (acc ++ map VBytes bs)]> st1) w).
Proof.
  induction triples as [|[[r d] f] triples IH]; intros acc w bs Hc Hbs.
  - apply Forall2_nil_inv_l in Hbs as ->. simpl.
    by rewrite app_nil_r, (set_state_same _ _ Hc).
  - change (wanted (((r, d), f) :: triples))
      with ((flat_map (fun file => if keeps file then [join r file] else []) f
             ++ wanted triples)%list) in Hbs.
    apply Forall2_app_inv_l in Hbs as (bs1 & bs2 & H1 & H2 & ->).
    change (for_each ((r, d, f) :: triples) ?body w)
      with ((for_each f (keep_file r) ;; for_each triples body) w).
    rewrite (bind_ok _ _ _ _ _ (keep_files_run st1 r f acc w bs1 Hc H1)).
    rewrite (IH (acc ++ map VBytes bs1)%list _ bs2); [|done|done].
    by rewrite set_state_twice, map_app, app_assoc.
Qed.

Lemma wf_find q : forall root n, wf root = true -> find q root = Ok n -> wf n = true.
Proof.
  induction q as [|c q IH]; intros root n Hwf; simpl.
  - by intros [= <-].
  - destruct root as [b|es]; [done|].
    destruct (assoc c es) as [m|] eqn:Hc; [|done].
    apply IH. apply wf_dir in Hwf as [Hes _].
    assert ((c, m) ∈ es) as Hin.
    { clear -Hc. induction es as [|[k v] es IHes]; simpl in Hc; [done|].
      destruct (String.eqb_spec c k) as [->|Hne].
      - injection Hc as ->. by left.
      - right. by apply IHes. }
    by destruct (proj1 (Forall_forall _ _) Hes _ Hin).
Qed.

Lemma os_walk_eq top w :
  os_walk top w
  = (Ok match find (resolve (cwd w) top) (fs w) with
        | Ok n => walk top n
        | Raise _ => []
        end, w).
Proof. reflexivity. Qed.

(** The gatherer on a well-formed file system: when [c3] is set and the
    new weights file can be read, it returns, ['network'] is the content
    of that file, and ['aug_images'] is the list of the contents of the
    files below the augmented directory whose name contains ".JPEG", in
    the order of the walk.  Nothing else changes. *)
Lemma gatherState_spec E w st net n :
  c3 w = Some st ->
  wf (fs w) = true ->
  get_file (resolve (cwd w) (newNetworkAbsPath E)) (fs w) = Ok net ->
  find (resolve (cwd w) (augAbsPath E)) (fs w) = Ok n ->
  gatherState E w
  = (Ok tt,
     set_state (<[augImagesKey := VList (gathered n)]>
                  (<[networkKey := VBytes net]> st)) w).
Proof.
  intros Hc Hwf Hnet Hfind. unfold gatherState.
  assert (read_file (newNetworkAbsPath E) w = (Ok net, w)) as Hread
    by (unfold read_file; by rewrite Hnet).
  rewrite (bind_ok _ _ _ _ _ Hread).
  rewrite (bind_ok _ _ _ _ _ (state_setitem_eq _ _ _ _ Hc)).
  set (st1 := <[networkKey := VBytes net]> st).
  set (w1 := set_state st1 w).
  rewrite (bind_ok _ _ _ _ _ (state_setitem_eq augImagesKey (VList []) w1 st1 eq_refl)).
  set (w2 := set_state (<[augImagesKey := VList []]> st1) w1).
  rewrite (bind_ok _ _ _ _ _ (os_walk_eq _ w2)).
  change (fs w2) with (fs w). change (cwd w2) with (cwd w). rewrite Hfind.
  rewrite (gather_loop st1 _ [] w2
             (map snd (List.filter (fun e => keeps (fst e)) (tree_files n)))).
  - unfold w2, w1. rewrite !set_state_twice. unfold gathered.
    by rewrite map_map.
  - done.
  - apply walk_reads with (q := resolve (cwd w) (augAbsPath E)); try done.
    by apply wf_find with (q := resolve (cwd w) (augAbsPath E)) (root := fs w).
Qed.

(** ** Lines 85-112: [acceptImage] *)

Section Intake.

Variable E : Env.

(** The validation block (lines 90-97) by cases on what [verify()] does. *)
Lemma acceptImage_falsy im w v :
  verify im = Ok v -> truthy v = false ->
  acceptImage E (Some im) w
  = (Raise InvalidImage,
     mkWorld (fs w) (cwd w) (c3 w)
             (stdout w ++ ["image failed to verify"] ++ ["invalid img invalid image"])
             (calls w ++ [CallVerify])).
Proof.
  intros Hv Ht. unfold acceptImage, bind, try_except, call_verify, log, lift, print, raise.
  simpl. rewrite Hv, Ht. simpl. by rewrite <- app_assoc.
Qed.

Lemma acceptImage_verify_error im w e :
  verify im = Raise e -> is_Exception e = true ->
  acceptImage E (Some im) w
  = (Raise InvalidImage,
     mkWorld (fs w) (cwd w) (c3 w)
             (stdout w ++ ["invalid img " +:+ str_exn e])
             (calls w ++ [CallVerify])).
Proof.
  intros Hv He. unfold acceptImage, bind, try_except, call_verify, log, lift, print, raise.
  simpl. by rewrite Hv, He.
Qed.

(** What [except Exception] does not catch goes to the caller as it is. *)
Lemma acceptImage_verify_exit im w e :
  verify im = Raise e -> is_Exception e = false ->
  acceptImage E (Some im) w = (Raise e, verified w).
Proof.
  intros Hv He. unfold acceptImage, bind, try_except, call_verify, log, lift, print, raise.
  simpl. by rewrite Hv, He.
Qed.

(** Past validation: lines 99-112 run from the world [verified w]. *)
Lemma acceptImage_truthy im w v :
  verify im = Ok v -> truthy v = true ->
  acceptImage E (Some im) w
  = (call_save im (inputFile E) (Some standardImgFormat) ;;
     call_gen E (inputAbsPath E) (augAbsPath E) (unaugAbsPath E) ;;
     returncode <- call_run E (training_command E) ;;
     if negb (returncode =? 0)%Z then
       print "Preprocess failed:  None" ;; raise TrainingFailed
     else gatherState E) (verified w).
Proof.
  intros Hv Ht. unfold acceptImage. unfold bind at 1, try_except.
  unfold bind at 1, call_verify, bind at 1, log, lift. rewrite Hv. simpl.
  by rewrite Ht.
Qed.

Lemma call_save_eq im fp format w :
  call_save im fp format w
  = match encode im fp format with
    | Raise e =>
        (Raise e, mkWorld (fs w) (cwd w) (c3 w) (stdout w)
                          (calls w ++ [CallSave fp format]))
    | Ok b =>
        match put_file (resolve (cwd w) fp) b (fs w) with
        | Raise e =>
            (Raise e, mkWorld (fs w) (cwd w) (c3 w) (stdout w)
                              (calls w ++ [CallSave fp format]))
        | Ok n =>
            (Ok tt, mkWorld n (cwd w) (c3 w) (stdout w)
                            (calls w ++ [CallSave fp format]))
        end
    end.
Proof.
  unfold call_save, bind, log, lift, write_file. simpl.
  destruct (encode im fp format) as [b|e]; [|done].
  by destruct (put_file (resolve (cwd w) fp) b (fs w)).
Qed.

Lemma call_gen_eq input aug unaug w :
  call_gen E input aug unaug w
  = (fst (gd_gen E input aug unaug (fs w)),
     mkWorld (snd (gd_gen E input aug unaug (fs w))) (cwd w) (c3 w) (stdout w)
             (calls w ++ [CallGen input aug unaug])).
Proof.
  unfold call_gen, bind, log. simpl.
  by destruct (gd_gen E input aug unaug (fs w)).
Qed.

(** Line 107 stops at the name [subprocess], which nothing binds:
    no process is started and no call is logged. *)
Lemma call_run_eq args w :
  call_run E args w = (Raise (NameError "subprocess"), w).
Proof. reflexivity. Qed.

(** The run of lines 99-112 when the picture can be encoded and its
    file written: the augmentation routine is called on the new file
    system, and whether it returns or raises, the call ends there or at
    line 107. *)
Lemma acceptImage_saved im w v b n1 :
  verify im = Ok v -> truthy v = true ->
  encode im (inputFile E) (Some standardImgFormat) = Ok b ->
  put_file (resolve (cwd w) (inputFile E)) b (fs w) = Ok n1 ->
  acceptImage E (Some im) w
  = (match fst (gd_gen E (inputAbsPath E) (augAbsPath E) (unaugAbsPath E) n1) with
     | Ok _ => Raise (NameError "subprocess")
     | Raise e => Raise e
     end,
     mkWorld (snd (gd_gen E (inputAbsPath E) (augAbsPath E) (unaugAbsPath E) n1))
             (cwd w) (c3 w) (stdout w)
             (calls w ++ [CallVerify] ++ [CallSave (inputFile E) (Some standardImgFormat)]
                      ++ [CallGen (inputAbsPath E) (augAbsPath E) (unaugAbsPath E)])).
Proof.
  intros Hv Ht He Hp. rewrite (acceptImage_truthy _ _ _ Hv Ht).
  unfold bind at 1. rewrite call_save_eq, He. simpl. rewrite Hp.
  unfold bind at 1. rewrite call_gen_eq. simpl. rewrite <- !app_assoc. simpl.
  destruct (gd_gen E (inputAbsPath E) (augAbsPath E) (unaugAbsPath E) n1) as [[[]|e] n2];
    simpl; [|done].
  unfold bind. by rewrite call_run_eq.
Qed.

(** Closes a goal "the call raised, having made the calls [cs], none of
    them to [subprocess.run]". *)
Ltac stops_after cs :=
  do 2 eexists; exists cs; split; [reflexivity|];
  simpl; rewrite <- ?app_assoc, ?app_nil_r; repeat split;
  intros ?; rewrite ?elem_of_cons, elem_of_nil; intuition discriminate.

(** No call of [acceptImage] returns, none changes [c3.state], none
    starts a process. *)
Lemma acceptImage_never_returns img w :
  exists e w' cs,
    acceptImage E img w = (Raise e, w')
    /\ c3 w' = c3 w /\ cwd w' = cwd w
    /\ calls w' = (calls w ++ cs)%list
    /\ forall args, CallRun args ∉ cs.
Proof.
  pose (save := CallSave (inputFile E) (Some standardImgFormat)).
  pose (gen := CallGen (inputAbsPath E) (augAbsPath E) (unaugAbsPath E)).
  destruct img as [im|]; [|stops_after (@nil call)].
  destruct (verify im) as [v|e] eqn:Hv.
  - destruct (truthy v) eqn:Ht.
    + rewrite (acceptImage_truthy _ _ _ Hv Ht).
      unfold bind at 1. rewrite call_save_eq.
      destruct (encode im (inputFile E) (Some standardImgFormat)) as [b|e];
        [|stops_after [CallVerify; save]].
      simpl. destruct (put_file (resolve (cwd w) (inputFile E)) b (fs w)) as [n1|e];
        [|stops_after [CallVerify; save]].
      unfold bind at 1. rewrite call_gen_eq. simpl.
      destruct (gd_gen E (inputAbsPath E) (augAbsPath E) (unaugAbsPath E) n1)
        as [[[]|e] n2]; simpl; [|stops_after [CallVerify; save; gen]].
      unfold bind. rewrite call_run_eq. stops_after [CallVerify; save; gen].
    + rewrite (acceptImage_falsy _ _ _ Hv Ht). stops_after [CallVerify].
  - destruct (is_Exception e) eqn:He.
    + rewrite (acceptImage_verify_error _ _ _ Hv He). stops_after [CallVerify].
    + rewrite (acceptImage_verify_exit _ _ _ Hv He). stops_after [CallVerify].
Qed.

End Intake.

(** ** Lines 37-62: [initState] as a whole *)

Section Whole.

Variable E : Env.

(** What follows the directories: lines 52-62. *)
Let rest : M unit := initState_images E ;; initState_network E.

Lemma initState_eq w st :
  c3 w = Some st -> initState E w = (initState_dirs ;; rest) w.
Proof. unfold initState. by intros ->. Qed.

(** Lines 52-62 remove no directory and leave [c3] and the current
    directory alone, whether they return or raise. *)
Lemma rest_frame w st :
  c3 w = Some st ->
  (forall q, is_dir q (fs w) = true -> is_dir q (fs (snd (rest w))) = true)
  /\ cwd (snd (rest w)) = cwd w /\ c3 (snd (rest w)) = c3 w.
Proof.
  intros Hc. unfold rest. pose proof (initState_images_spec E w st Hc) as Hi.
  destruct (no_stored_images st).
  - rewrite (bind_ok _ _ _ _ _ Hi), (initState_network_eq E _ _ Hc).
    destruct (writeBytesToFile_frame (network_value st) (oldNetworkAbsPath E) w)
      as (H1 & H2 & H3 & _). done.
  - destruct Hi as (e & w' & Hr & Hfs & Hc3 & Hcwd & _).
    rewrite (bind_raise _ _ _ _ _ Hr). simpl. rewrite Hfs. done.
Qed.

(** Run again on the world they left, lines 52-62 leave the file system
    as it is. *)
Lemma rest_again w st :
  c3 w = Some st -> fs (snd (rest (snd (rest w)))) = fs (snd (rest w)).
Proof.
  intros Hc. unfold rest. pose proof (initState_images_spec E w st Hc) as Hi.
  destruct (no_stored_images st) eqn:Hn.
  - rewrite (bind_ok _ _ _ _ _ Hi), (initState_network_eq E _ _ Hc).
    destruct (writeBytesToFile_frame (network_value st) (oldNetworkAbsPath E) w)
      as (_ & _ & Hc' & _).
    rewrite Hc in Hc'.
    pose proof (initState_images_spec E _ st Hc') as Hi'. rewrite Hn in Hi'.
    rewrite (bind_ok _ _ _ _ _ Hi'), (initState_network_eq E _ _ Hc').
    apply writeBytesToFile_again.
  - destruct Hi as (e & w' & Hr & Hfs & Hc3 & _).
    rewrite (bind_raise _ _ _ _ _ Hr). simpl.
    rewrite Hc in Hc3.
    pose proof (initState_images_spec E _ st Hc3) as Hi'. rewrite Hn in Hi'.
    destruct Hi' as (e' & w'' & Hr' & Hfs' & _).
    by rewrite (bind_raise _ _ _ _ _ Hr').
Qed.

(** However [initState] ends once [c3] is set, it leaves the four
    working directories behind, and the current directory and [c3] as
    they were. *)
Lemma initState_leaves_dirs w st :
  c3 w = Some st ->
  unobstructed w = true ->
  working_dirs_exist (cwd w) (fs (snd (initState E w))) = true
  /\ cwd (snd (initState E w)) = cwd w
  /\ c3 (snd (initState E w)) = Some st.
Proof.
  intros Hc Hu.
  destruct (initState_dirs_spec w Hu) as (n & Hrun & Hdirs & _).
  rewrite (initState_eq _ _ Hc), (bind_ok _ _ _ _ _ Hrun).
  set (w1 := set_fs n w). assert (c3 w1 = Some st) as Hc1 by done.
  destruct (rest_frame w1 st Hc1) as (Hkeep & Hcwd & Hc').
  split; [|split; [done|by rewrite Hc']].
  unfold working_dirs_exist in *. apply forallb_forall.
  intros rel Hrel. apply Hkeep. by apply (proj1 (forallb_forall _ _) Hdirs).
Qed.

Lemma ensure_dir_frame p w : exists r n, ensure_dir p w = (r, set_fs n w).
Proof.
  unfold ensure_dir. rewrite (bind_ok _ _ _ _ _ (os_path_exists_eq p w)).
  destruct (path_exists (resolve (cwd w) p) (fs w)).
  - exists (Ok tt), (fs w). by rewrite set_fs_same.
  - rewrite os_makedirs_eq. destruct (mkdirs (resolve (cwd w) p) (fs w)) as [n|e].
    + by exists (Ok tt), n.
    + exists (Raise e), (fs w). by rewrite set_fs_same.
Qed.

(** Lines 43-50 touch nothing but the file system. *)
Lemma initState_dirs_frame w : exists r n, initState_dirs w = (r, set_fs n w).
Proof.
  unfold initState_dirs.
  destruct (ensure_dir_frame inputRelPath w) as ([[]|e1] & n1 & H1);
    [rewrite (bind_ok _ _ _ _ _ H1)|rewrite (bind_raise _ _ _ _ _ H1); by eauto].
  destruct (ensure_dir_frame augRelPath (set_fs n1 w)) as ([[]|e2] & n2 & H2);
    [rewrite (bind_ok _ _ _ _ _ H2)|rewrite (bind_raise _ _ _ _ _ H2); by eauto].
  destruct (ensure_dir_frame unaugRelPath (set_fs n2 (set_fs n1 w))) as ([[]|e3] & n3 & H3);
    [rewrite (bind_ok _ _ _ _ _ H3)|rewrite (bind_raise _ _ _ _ _ H3); by eauto].
  destruct (ensure_dir_frame networkRelPath (set_fs n3 (set_fs n2 (set_fs n1 w))))
    as (r & n4 & H4).
  rewrite H4. by eauto.
Qed.

(** When [initState] returns, there was no stored image to put back,
    the network value is a byte string, and the old-network file holds
    it. *)
Lemma initState_returns_inv w st :
  c3 w = Some st ->
  fst (initState E w) = Ok tt ->
  no_stored_images st = true
  /\ exists d, network_value st = VBytes d
       /\ get_file (resolve (cwd w) (oldNetworkAbsPath E)) (fs (snd (initState E w)))
          = Ok d.
Proof.
  intros Hc. rewrite (initState_eq _ _ Hc).
  destruct (initState_dirs_frame w) as ([[]|e] & n & Hd);
    [rewrite (bind_ok _ _ _ _ _ Hd)|by rewrite (bind_raise _ _ _ _ _ Hd)].
  set (w1 := set_fs n w). assert (c3 w1 = Some st) as Hc1 by done.
  unfold rest. pose proof (initState_images_spec E w1 st Hc1) as Hi.
  destruct (no_stored_images st).
  - rewrite (bind_ok _ _ _ _ _ Hi), (initState_network_eq E _ _ Hc1).
    rewrite writeBytesToFile_eq. change (cwd w1) with (cwd w).
    destruct (put_file (resolve (cwd w) (oldNetworkAbsPath E)) [] (fs w1))
      as [n1|e1]; [|done].
    destruct (network_value st) as [|?|?|?|d|?]; try done.
    destruct (put_file (resolve (cwd w) (oldNetworkAbsPath E)) d n1)
      as [n2|e2] eqn:H2; [|done].
    intros _. split; [done|]. exists d. split; [done|].
    by apply get_put_file with (n := n1).
  - destruct Hi as (e & w' & Hr & _). by rewrite (bind_raise _ _ _ _ _ Hr).
Qed.

End Whole.

(* ================================================================== *)
(** * The claims *)

(** C6.  [acceptImage(None)] raises [PillowImageRequired]; it prints a
    line, and the file system, [c3] and the log of external calls are
    what they were: nothing is written to disk. *)
Theorem acceptImage_None_raises (E : Env) (w : World) :
  acceptImage E None w
  = (Raise PillowImageRequired,
     mkWorld (fs w) (cwd w) (c3 w)
             (stdout w ++ ["pillow image is required"]) (calls w)).
Proof. reflexivity. Qed.

(** C2, as the code has it.  When [verify()] returns a false value or
    raises an exception that is an instance of [Exception],
    [acceptImage] raises [InvalidImage]; [c3.state] and the file system
    are untouched, and the only external call made is the one to
    [verify()]: neither the augmentation routine nor the training
    process is invoked. *)
Theorem acceptImage_rejects_failed_verification (E : Env) (im : Image) (w : World) :
  (exists v, verify im = Ok v /\ truthy v = false)
  \/ (exists e, verify im = Raise e /\ is_Exception e = true) ->
  fst (acceptImage E (Some im) w) = Raise InvalidImage
  /\ c3 (snd (acceptImage E (Some im) w)) = c3 w
  /\ fs (snd (acceptImage E (Some im) w)) = fs w
  /\ calls (snd (acceptImage E (Some im) w)) = (calls w ++ [CallVerify])%list.
Proof.
  intros [(v & Hv & Ht)|(e & Hv & He)].
  - by rewrite (acceptImage_falsy E _ _ _ Hv Ht).
  - by rewrite (acceptImage_verify_error E _ _ _ Hv He).
Qed.

Lemma acceptImage_rejects_failed_verification_witness :
  fst (acceptImage Sample.env (Some Sample.broken_picture) Sample.fresh)
  = Raise InvalidImage
  /\ c3 (snd (acceptImage Sample.env (Some Sample.broken_picture) Sample.fresh))
     = c3 Sample.fresh
  /\ fs (snd (acceptImage Sample.env (Some Sample.broken_picture) Sample.fresh))
     = fs Sample.fresh
  /\ calls (snd (acceptImage Sample.env (Some Sample.broken_picture) Sample.fresh))
     = (calls Sample.fresh ++ [CallVerify])%list.
Proof.
  apply (acceptImage_rejects_failed_verification
           Sample.env Sample.broken_picture Sample.fresh).
  right. exists (OtherError "broken data stream"). split; reflexivity.
Defined.

(** C2 as stated fails for an exception outside [Exception]: line 95
    catches [Exception] only, so a [KeyboardInterrupt] raised while the
    picture is verified reaches the caller as it is. *)
Lemma acceptImage_lets_interrupt_through :
  verify Sample.interrupted_picture = Raise (SystemExiting "KeyboardInterrupt")
  /\ fst (acceptImage Sample.env (Some Sample.interrupted_picture) Sample.fresh)
     = Raise (SystemExiting "KeyboardInterrupt")
  /\ fst (acceptImage Sample.env (Some Sample.interrupted_picture) Sample.fresh)
     <> Raise InvalidImage.
Proof. split; [reflexivity|]. split; [reflexivity|]. discriminate. Qed.

(** C9.  A false value returned by [verify()], [None] included, makes
    [acceptImage] raise [InvalidImage] with no call after [verify()];
    and whenever [acceptImage] makes a call after [verify()], that is
    whenever it gets past validation, [verify()] had returned a true
    value. *)
Theorem acceptImage_passes_only_truthy_verify (E : Env) (im : Image) (w : World) :
  (forall v, verify im = Ok v -> truthy v = false ->
     fst (acceptImage E (Some im) w) = Raise InvalidImage
     /\ calls (snd (acceptImage E (Some im) w)) = (calls w ++ [CallVerify])%list)
  /\ (verify im = Ok VNone -> fst (acceptImage E (Some im) w) = Raise InvalidImage)
  /\ (calls (snd (acceptImage E (Some im) w)) <> (calls w ++ [CallVerify])%list ->
      exists v, verify im = Ok v /\ truthy v = true).
Proof.
  split; [|split].
  - intros v Hv Ht. by rewrite (acceptImage_falsy E _ _ _ Hv Ht).
  - intros Hv. by rewrite (acceptImage_falsy E _ _ _ Hv eq_refl).
  - intros Hcalls. destruct (verify im) as [v|e] eqn:Hv.
    + destruct (truthy v) eqn:Ht; [by exists v|].
      by rewrite (acceptImage_falsy E _ _ _ Hv Ht) in Hcalls.
    + destruct (is_Exception e) eqn:He.
      * by rewrite (acceptImage_verify_error E _ _ _ Hv He) in Hcalls.
      * by rewrite (acceptImage_verify_exit E _ _ _ Hv He) in Hcalls.
Qed.

Lemma acceptImage_passes_only_truthy_verify_witness :
  fst (acceptImage Sample.env (Some Sample.pil_picture) Sample.fresh) = Raise InvalidImage
  /\ exists v, verify Sample.picture = Ok v /\ truthy v = true.
Proof.
  split.
  - apply (proj1 (proj2 (acceptImage_passes_only_truthy_verify
                           Sample.env Sample.pil_picture Sample.fresh))).
    reflexivity.
  - apply (proj2 (proj2 (acceptImage_passes_only_truthy_verify
                           Sample.env Sample.picture Sample.fresh))).
    vm_compute. discriminate.
Defined.

(** C1, at the input where the claim fails.  The picture passes
    validation, it is saved, the augmentation routine returns, and the
    training script would exit with status 1: [acceptImage] raises
    [NameError] for the name [subprocess], not [TrainingFailed].  The
    script is never started; [c3.state] is what it was. *)
Theorem acceptImage_stops_before_training :
  fst (acceptImage Sample.env (Some Sample.picture) Sample.trained)
  = Raise (NameError "subprocess")
  /\ fst (subprocess_run Sample.env (training_command Sample.env)
            (fs (snd (acceptImage Sample.env (Some Sample.picture) Sample.trained))))
     = Ok 1%Z
  /\ calls (snd (acceptImage Sample.env (Some Sample.picture) Sample.trained))
     = [CallVerify;
        CallSave "/srv/app/tmp/input/input.JPEG" (Some "JPEG");
        CallGen "/srv/app/tmp/input" "/srv/app/tmp/aug_64x64" "/srv/app/tmp/unaug_64x64"]
  /\ c3 (snd (acceptImage Sample.env (Some Sample.picture) Sample.trained))
     = c3 Sample.trained.
Proof. repeat split; vm_compute; reflexivity. Qed.

(** C7, as the code has it.  Whatever the file system holds at first,
    short of a regular file standing where a working directory or the
    directory above it should be, the four working directories exist
    once [initState] is over, whether it returned or raised after
    creating them.  Creation
    is create-if-absent: with the four directories in place lines 43-50
    change nothing and raise nothing, and a second [initState] leaves
    the file system as the first one left it. *)
Theorem initState_working_dirs_exist (E : Env) (w : World) (st : gmap string pyval) :
  c3 w = Some st ->
  unobstructed w = true ->
  working_dirs_exist (cwd w) (fs (snd (initState E w))) = true
  /\ cwd (snd (initState E w)) = cwd w
  /\ initState_dirs (snd (initState E w)) = (Ok tt, snd (initState E w))
  /\ fs (snd (initState E (snd (initState E w)))) = fs (snd (initState E w)).
Proof.
  intros Hc Hu.
  destruct (initState_leaves_dirs E w st Hc Hu) as (Hdirs & Hcwd & Hc').
  assert (initState_dirs (snd (initState E w)) = (Ok tt, snd (initState E w))) as Hagain
    by (apply initState_dirs_present; by rewrite Hcwd).
  split; [done|]. split; [done|]. split; [done|].
  rewrite (initState_eq E (snd (initState E w)) st Hc'), (bind_ok _ _ _ _ _ Hagain).
  rewrite (initState_eq E w st Hc).
  destruct (initState_dirs_spec w Hu) as (n & Hrun & _).
  rewrite (bind_ok _ _ _ _ _ Hrun).
  by apply rest_again with (st := st).
Qed.

Lemma initState_working_dirs_exist_witness :
  working_dirs_exist (cwd Sample.elsewhere)
    (fs (snd (initState Sample.env Sample.elsewhere))) = true
  /\ cwd (snd (initState Sample.env Sample.elsewhere)) = cwd Sample.elsewhere
  /\ initState_dirs (snd (initState Sample.env Sample.elsewhere))
     = (Ok tt, snd (initState Sample.env Sample.elsewhere))
  /\ fs (snd (initState Sample.env (snd (initState Sample.env Sample.elsewhere))))
     = fs (snd (initState Sample.env Sample.elsewhere)).
Proof.
  apply (initState_working_dirs_exist Sample.env Sample.elsewhere ∅);
    reflexivity.
Defined.

(** C7 as stated fails where a regular file has the name of a working
    directory: [os.path.exists] is true of it, line 44 is skipped,
    [initState] returns, and there is still no input directory. *)
Lemma initState_keeps_file_in_place_of_dir :
  fst (initState Sample.env Sample.blocked) = Ok tt
  /\ is_dir (resolve (cwd Sample.blocked) inputRelPath)
            (fs (snd (initState Sample.env Sample.blocked))) = false
  /\ get_file (resolve (cwd Sample.blocked) inputRelPath)
              (fs (snd (initState Sample.env Sample.blocked))) = Ok Sample.notes
  /\ working_dirs_exist (cwd Sample.blocked)
                        (fs (snd (initState Sample.env Sample.blocked))) = false.
Proof. repeat split; vm_compute; reflexivity. Qed.

(** Where [initState] creates and where the program reads and writes. *)

Lemma resolve_working_dir cwd0 rel :
  rel ∈ working_dirs -> resolve cwd0 rel = (components cwd0 ++ components rel)%list.
Proof.
  unfold working_dirs. rewrite !elem_of_cons, elem_of_nil.
  intros [->|[->|[->|[->|[]]]]]; reflexivity.
Qed.

Lemma resolve_module_path E cwd0 rel :
  is_abs (moduleDir E) = true ->
  resolve cwd0 (moduleDir E +:+ sep +:+ rel)
  = (components (moduleDir E) ++ components rel)%list.
Proof. apply resolve_anchored. Qed.

Lemma resolve_module_file E cwd0 rel name :
  is_abs (moduleDir E) = true ->
  resolve cwd0 ((moduleDir E +:+ sep +:+ rel) +:+ sep +:+ name)
  = (components (moduleDir E) ++ components rel ++ components name)%list.
Proof.
  intros Ha. rewrite resolve_anchored by (by apply is_abs_app).
  by rewrite components_app_sep, <- app_assoc.
Qed.

(** From another directory than the module's, on a new installation:
    the directories appear under the current directory, and the write
    of the old-network file fails for want of its directory. *)
Example initState_from_elsewhere :
  fst (initState Sample.env Sample.elsewhere) = Raise FileNotFoundError
  /\ is_dir ["home"; "user"; "tmp"; "network"]
            (fs (snd (initState Sample.env Sample.elsewhere))) = true
  /\ path_exists ["srv"; "app"; "tmp"]
                 (fs (snd (initState Sample.env Sample.elsewhere))) = false.
Proof. repeat split; vm_compute; reflexivity. Qed.



(** Files with other names are left out: the augmented directory holds
    three files, the gatherer returns, and ['aug_images'] holds two
    contents, that of notes.txt not being among them. *)
Lemma gatherState_leaves_out_other_names :
  all_contents Sample.aug_tree
  = [VBytes Sample.jpeg; VBytes Sample.notes; VBytes Sample.other_jpeg]
  /\ exists w',
      gatherState Sample.env Sample.trained = (Ok tt, w')
      /\ (c3 w' ≫= fun st => st !! augImagesKey)
         = Some (VList [VBytes Sample.jpeg; VBytes Sample.other_jpeg])
      /\ (c3 w' ≫= fun st => st !! augImagesKey)
         <> Some (VList (all_contents Sample.aug_tree)).
Proof.
  split; [reflexivity|].
  eexists. split.
  - apply (gatherState_spec Sample.env Sample.trained ∅ Sample.weights Sample.aug_tree);
      reflexivity.
  - simpl. rewrite lookup_insert_eq. split; [reflexivity|]. discriminate.
Qed.

(** C5, at the input where the claim fails.  With one stored image on a
    new installation, the entry is read and opened, and the file name
    is never built: adding the index, an integer, to the path raises
    [TypeError].  The augmented directory is created and stays empty;
    in particular it holds no file named 0JPEG. *)
Theorem initState_builds_no_file_name :
  py_add (VStr (augAbsPath Sample.env +:+ sep)) (VInt 0) = Raise TypeError
  /\ fst (initState Sample.env Sample.reinstalled) = Raise TypeError
  /\ calls (snd (initState Sample.env Sample.reinstalled))
     = [CallOpen (VBytes Sample.jpeg)]
  /\ find ["srv"; "app"; "tmp"; "aug_64x64"]
          (fs (snd (initState Sample.env Sample.reinstalled))) = Ok (Dir [])
  /\ find ["srv"; "app"; "tmp"; "aug_64x64"; "0JPEG"]
          (fs (snd (initState Sample.env Sample.reinstalled))) = Raise FileNotFoundError.
Proof. repeat split; vm_compute; reflexivity. Qed.

(** C4, at the input where the claim fails.  The state holds one image;
    [initState] raises [TypeError] and puts nothing back on disk; the
    gatherer, run on what [initState] left, returns with an empty
    ['aug_images']: the stored image is not reproduced. *)
Theorem rehydrate_then_gather_loses_images :
  (c3 Sample.restarted ≫= fun st => st !! augImagesKey)
  = Some (VList [VBytes Sample.jpeg])
  /\ fst (initState Sample.env Sample.restarted) = Raise TypeError
  /\ fs (snd (initState Sample.env Sample.restarted)) = fs Sample.restarted
  /\ exists w',
      gatherState Sample.env (snd (initState Sample.env Sample.restarted)) = (Ok tt, w')
      /\ (c3 w' ≫= fun st => st !! augImagesKey) = Some (VList []).
Proof.
  split; [reflexivity|]. split; [vm_compute; reflexivity|].
  split; [vm_compute; reflexivity|].
  eexists. split.
  - apply (gatherState_spec Sample.env _ Sample.stored Sample.weights (Dir []));
      vm_compute; reflexivity.
  - simpl. by rewrite lookup_insert_eq.
Qed.

(** C8, at the input where the claim fails.  The state holds a network
    and one image: [initState] raises [TypeError] at line 56, before
    the lines that write the network, and the old-network file does not
    exist afterwards. *)
Theorem initState_skips_network_after_images :
  network_value Sample.stored = VBytes Sample.weights
  /\ fst (initState Sample.env Sample.reinstalled) = Raise TypeError
  /\ is_dir (resolve (cwd Sample.reinstalled) (networkAbsPath Sample.env))
            (fs (snd (initState Sample.env Sample.reinstalled))) = true
  /\ get_file (resolve (cwd Sample.reinstalled) (oldNetworkAbsPath Sample.env))
              (fs (snd (initState Sample.env Sample.reinstalled)))
     = Raise FileNotFoundError.
Proof. repeat split; vm_compute; reflexivity. Qed.

(* ================================================================== *)
(** * Further properties *)

(** X1.  [acceptImage] returns on no input: every call ends in an exception,
    with [c3.state] as it was and without a call to [subprocess.run]. *)
Theorem acceptImage_returns_on_no_input (E : Env) (img : option Image) (w : World) :
  fst (acceptImage E img w) <> Ok tt
  /\ c3 (snd (acceptImage E img w)) = c3 w
  /\ exists cs, calls (snd (acceptImage E img w)) = (calls w ++ cs)%list
                /\ forall args, CallRun args ∉ cs.
Proof.
  destruct (acceptImage_never_returns E img w) as (e & w' & cs & -> & Hc & _ & Hcs & Hrun).
  split; [done|]. split; [done|]. by exists cs.
Qed.

(** X2.  When [initState] returns, there was no stored image to put
    back and the old-network file holds the stored network, or no byte
    when none was stored. *)
Theorem initState_return_means_network_written
    (E : Env) (w : World) (st : gmap string pyval) :
  c3 w = Some st ->
  fst (initState E w) = Ok tt ->
  no_stored_images st = true
  /\ exists d, network_value st = VBytes d
       /\ get_file (resolve (cwd w) (oldNetworkAbsPath E)) (fs (snd (initState E w)))
          = Ok d.
Proof. apply initState_returns_inv. Qed.

Lemma initState_return_means_network_written_witness :
  no_stored_images ∅ = true
  /\ exists d, network_value ∅ = VBytes d
       /\ get_file (resolve (cwd Sample.fresh) (oldNetworkAbsPath Sample.env))
                   (fs (snd (initState Sample.env Sample.fresh)))
          = Ok d.
Proof.
  apply (initState_return_means_network_written Sample.env Sample.fresh ∅);
    vm_compute; reflexivity.
Defined.

(** X3.  With at least one stored image [initState] raises, whatever PIL
    does with the entry, and the file system is left as the directory
    block left it: no image is written, and the network is not. *)
Theorem initState_raises_on_stored_images
    (E : Env) (w : World) (st : gmap string pyval) (x : pyval) (l : list pyval) :
  c3 w = Some st ->
  st !! augImagesKey = Some (VList (x :: l)) ->
  (exists e, fst (initState E w) = Raise e)
  /\ exists r, initState_dirs w = (r, set_fs (fs (snd (initState E w))) w).
Proof.
  intros Hc Hl. rewrite (initState_eq E _ _ Hc).
  destruct (initState_dirs_frame w) as ([[]|e] & n & Hd).
  - rewrite (bind_ok _ _ _ _ _ Hd).
    assert (c3 (set_fs n w) = Some st) as Hc1 by done.
    pose proof (initState_images_spec E _ st Hc1) as Hi.
    unfold no_stored_images in Hi. rewrite Hl in Hi. simpl in Hi.
    destruct Hi as (e & w' & Hr & Hfs & _).
    rewrite (bind_raise _ _ _ _ _ Hr). simpl. rewrite Hfs. simpl. by eauto.
  - rewrite (bind_raise _ _ _ _ _ Hd). simpl. by eauto.
Qed.

Lemma initState_raises_on_stored_images_witness :
  (exists e, fst (initState Sample.env Sample.reinstalled) = Raise e)
  /\ exists r, initState_dirs Sample.reinstalled
               = (r, set_fs (fs (snd (initState Sample.env Sample.reinstalled)))
                            Sample.reinstalled).
Proof.
  apply (initState_raises_on_stored_images
           Sample.env Sample.reinstalled Sample.stored (VBytes Sample.jpeg) []);
    reflexivity.
Defined.

(* ================================================================== *)
(** * The rest of [main.py] *)

(** ** More on the file system *)

Lemma get_file_cons c q es :
  get_file (c :: q) (Dir es)
  = match assoc c es with
    | Some m => get_file q m
    | None => Raise FileNotFoundError
    end.
Proof. unfold get_file. simpl. by destruct (assoc c es). Qed.

(** Writing a file changes the content of no other file. *)
Lemma put_file_keeps_files p b q n n' c :
  put_file p b n = Ok n' -> q <> p -> get_file q n = Ok c -> get_file q n' = Ok c.
Proof.
  revert q n n'. induction p as [|c0 p IH]; intros q [d|es] n'; try done.
  destruct p as [|c2 p].
  - simpl. intros Hput Hne.
    assert (n' = Dir (assoc_put c0 (File b) es)
            /\ forall es', assoc c0 es <> Some (Dir es')) as [-> Hc0].
    { destruct (assoc c0 es) as [[d|es']|]; try done; by injection Hput as <-. }
    destruct q as [|c1 q]; [done|]. rewrite !get_file_cons.
    destruct (String.eqb_spec c1 c0) as [->|Hc].
    + destruct q as [|c3 q]; [done|].
      by destruct (assoc c0 es) as [[d|es']|].
    + by rewrite (assoc_put_ne _ _ _ _ Hc).
  - rewrite put_file_below. destruct (assoc c0 es) as [m|] eqn:Hm; [|done].
    destruct (put_file (c2 :: p) b m) as [m'|] eqn:Hput; [|done].
    intros [= <-] Hne. destruct q as [|c1 q]; [done|]. rewrite !get_file_cons.
    destruct (String.eqb_spec c1 c0) as [->|Hc].
    + rewrite Hm, assoc_put_eq. apply (IH _ _ _ Hput). congruence.
    + by rewrite (assoc_put_ne _ _ _ _ Hc).
Qed.

(** Creating directories changes the content of no file. *)
Lemma mkdirs_keeps_files p q n n' c :
  mkdirs p n = Ok n' -> get_file q n = Ok c -> get_file q n' = Ok c.
Proof.
  revert q n n'. induction p as [|c0 p IH]; intros q [d|es] n'; simpl; try done.
  destruct (assoc c0 es) as [m|] eqn:Hm.
  - destruct (mkdirs p m) as [m'|] eqn:Hmk; [|done]. intros [= <-].
    destruct q as [|c1 q]; [done|]. rewrite !get_file_cons.
    destruct (String.eqb_spec c1 c0) as [->|Hc].
    + rewrite Hm, assoc_put_eq. by apply IH.
    + by rewrite (assoc_put_ne _ _ _ _ Hc).
  - intros [= <-]. destruct q as [|c1 q]; [done|]. rewrite !get_file_cons.
    destruct (String.eqb_spec c1 c0) as [->|Hc].
    + by rewrite Hm.
    + by rewrite (assoc_app_old _ _ _ _ Hc).
Qed.

(** A file is written only into a directory that exists. *)
Lemma put_file_needs_dir q name b n n' :
  put_file (q ++ [name]) b n = Ok n' -> is_dir q n = true.
Proof.
  unfold is_dir. revert n n'. induction q as [|c q IH]; intros [d|es] n'; try done.
  change ((c :: q) ++ [name])%list with (c :: (q ++ [name]))%list.
  destruct (q ++ [name])%list as [|c2 p] eqn:Hp; [destruct q; discriminate Hp|].
  rewrite put_file_below. cbn [find].
  destruct (assoc c es) as [m|]; [|done].
  destruct (put_file (c2 :: p) b m) as [m'|] eqn:Hput; [|done]. intros _.
  by apply (IH _ _ Hput).
Qed.

(** A directory that exists after [os.makedirs] was there before or is
    one of those created, the target or an ancestor of it. *)
Lemma mkdirs_new_dirs p q n n' :
  mkdirs p n = Ok n' -> is_dir q n' = true -> is_dir q n = true \/ q `prefix_of` p.
Proof.
  unfold is_dir.
  revert q n n'. induction p as [|c0 p IH]; intros q [d|es] n'; simpl; try done.
  destruct (assoc c0 es) as [m|] eqn:Hm.
  - destruct (mkdirs p m) as [m'|] eqn:Hmk; [|done]. intros [= <-].
    destruct q as [|c1 q]; simpl; [by left|].
    destruct (String.eqb_spec c1 c0) as [->|Hc].
    + rewrite Hm, assoc_put_eq. intros Hq.
      destruct (IH _ _ _ Hmk Hq) as [?|Hpre]; [by left|right].
      by apply prefix_cons.
    + rewrite (assoc_put_ne _ _ _ _ Hc). by left.
  - intros [= <-]. destruct q as [|c1 q]; simpl; [by left|].
    destruct (String.eqb_spec c1 c0) as [->|Hc].
    + rewrite (assoc_app_new _ _ _ Hm). intros Hq. right. apply prefix_cons.
      clear -Hq. revert q Hq. induction p as [|c p IHp]; intros [|c' q]; simpl;
        try done; try (intros _; apply prefix_nil).
      destruct (String.eqb_spec c' c) as [->|]; [|done].
      intros Hq. apply prefix_cons. by apply IHp.
    + rewrite (assoc_app_old _ _ _ _ Hc). by left.
Qed.

(** ** Lines 64-71: [writeBytesToFile] and [readBytesFromFile] *)

(** Where the directory exists and no directory has the file's name,
    the bytes are written, and the new file system is the old one with
    that one file set. *)
Lemma writeBytesToFile_writes d fileName w q name :
  resolve (cwd w) fileName = (q ++ [name])%list ->
  is_dir q (fs w) = true ->
  is_dir (q ++ [name]) (fs w) = false ->
  exists n2,
    put_file (q ++ [name]) d (fs w) = Ok n2
    /\ writeBytesToFile (VBytes d) fileName w = (Ok tt, set_fs n2 w).
Proof.
  intros Hp Hq Hf. rewrite writeBytesToFile_eq, Hp.
  destruct (put_file_ok _ _ [] _ Hq Hf) as [n1 H1].
  destruct (put_file_ok _ _ d _ Hq Hf) as [n2 H2].
  exists n2. split; [done|].
  by rewrite H1, (put_file_twice _ _ _ _ _ H1), H2.
Qed.

Lemma writeBytesToFile_keeps_files v fileName w q c :
  q <> resolve (cwd w) fileName ->
  get_file q (fs w) = Ok c ->
  get_file q (fs (snd (writeBytesToFile v fileName w))) = Ok c.
Proof.
  intros Hne Hq. rewrite writeBytesToFile_eq.
  destruct (put_file (resolve (cwd w) fileName) [] (fs w)) as [n1|e] eqn:H1; [|done].
  pose proof (put_file_keeps_files _ _ _ _ _ _ H1 Hne Hq) as Hq1.
  destruct v as [|?|?|?|d|?]; try done.
  destruct (put_file (resolve (cwd w) fileName) d n1) as [n2|e] eqn:H2; [|done].
  by apply (put_file_keeps_files _ _ _ _ _ _ H2 Hne).
Qed.

(** X4.  Round trip: in an existing directory, [writeBytesToFile] of a
    byte string returns, whatever the file held or whether it existed,
    and [readBytesFromFile] of the same name then gives these bytes
    back. *)
Theorem write_then_read_bytes
    (d : bytes) (fileName : string) (w : World) (q : list string) (name : string) :
  resolve (cwd w) fileName = (q ++ [name])%list ->
  is_dir q (fs w) = true ->
  is_dir (q ++ [name]) (fs w) = false ->
  fst (writeBytesToFile (VBytes d) fileName w) = Ok tt
  /\ fst (readBytesFromFile fileName (snd (writeBytesToFile (VBytes d) fileName w)))
     = Ok d.
Proof.
  intros Hp Hq Hf.
  destruct (writeBytesToFile_writes d _ _ _ _ Hp Hq Hf) as (n2 & H2 & ->).
  split; [done|]. unfold readBytesFromFile, read_file. simpl.
  rewrite Hp. by apply get_put_file with (n := fs w).
Qed.

Lemma write_then_read_bytes_witness :
  get_file ["srv"; "app"; "tmp"; "network"; "adversarial.net"] (fs Sample.trained)
  = Ok Sample.weights
  /\ fst (writeBytesToFile (VBytes Sample.jpeg) (newNetworkAbsPath Sample.env)
                           Sample.trained) = Ok tt
  /\ fst (readBytesFromFile (newNetworkAbsPath Sample.env)
            (snd (writeBytesToFile (VBytes Sample.jpeg) (newNetworkAbsPath Sample.env)
                                   Sample.trained)))
     = Ok Sample.jpeg.
Proof.
  split; [reflexivity|].
  apply (write_then_read_bytes Sample.jpeg (newNetworkAbsPath Sample.env) Sample.trained
           ["srv"; "app"; "tmp"; "network"] "adversarial.net"); reflexivity.
Defined.

(** X5.  A value that is not a byte string: the file is opened for
    writing first, which empties it, and then [write] raises
    [TypeError].  What the file held is lost, and it is left empty. *)
Theorem writeBytesToFile_not_bytes
    (v : pyval) (fileName : string) (w : World) (q : list string) (name : string) :
  (forall d, v <> VBytes d) ->
  resolve (cwd w) fileName = (q ++ [name])%list ->
  is_dir q (fs w) = true ->
  is_dir (q ++ [name]) (fs w) = false ->
  fst (writeBytesToFile v fileName w) = Raise TypeError
  /\ fst (readBytesFromFile fileName (snd (writeBytesToFile v fileName w))) = Ok [].
Proof.
  intros Hv Hp Hq Hf. rewrite writeBytesToFile_eq, Hp.
  destruct (put_file_ok _ _ [] _ Hq Hf) as [n1 H1]. rewrite H1.
  assert (get_file (q ++ [name]) n1 = Ok []) as Hget
    by (by apply get_put_file with (n := fs w)).
  destruct v as [|?|?|?|d|?]; try (by destruct (Hv d));
    (split; [done|]); unfold readBytesFromFile, read_file; simpl; by rewrite Hp.
Qed.

Lemma writeBytesToFile_not_bytes_witness :
  get_file ["srv"; "app"; "tmp"; "network"; "adversarial.net"] (fs Cases.mistyped)
  = Ok Sample.weights
  /\ fst (writeBytesToFile (VStr "weights") (newNetworkAbsPath Sample.env) Cases.mistyped)
     = Raise TypeError
  /\ fst (readBytesFromFile (newNetworkAbsPath Sample.env)
            (snd (writeBytesToFile (VStr "weights") (newNetworkAbsPath Sample.env)
                                   Cases.mistyped)))
     = Ok [].
Proof.
  split; [reflexivity|].
  apply (writeBytesToFile_not_bytes (VStr "weights") (newNetworkAbsPath Sample.env)
           Cases.mistyped ["srv"; "app"; "tmp"; "network"] "adversarial.net");
    try reflexivity.
  intros d. discriminate.
Defined.

(** X6.  [writeBytesToFile] touches one file: every other file keeps
    its content, whatever the value written and whether the call
    returns or raises; [c3.state], the current directory and the output
    are left alone. *)
Theorem writeBytesToFile_touches_one_file
    (v : pyval) (fileName : string) (w : World) (q : list string) (c : bytes) :
  q <> resolve (cwd w) fileName ->
  get_file q (fs w) = Ok c ->
  get_file q (fs (snd (writeBytesToFile v fileName w))) = Ok c
  /\ c3 (snd (writeBytesToFile v fileName w)) = c3 w
  /\ cwd (snd (writeBytesToFile v fileName w)) = cwd w
  /\ stdout (snd (writeBytesToFile v fileName w)) = stdout w.
Proof.
  intros Hne Hq. split; [by apply writeBytesToFile_keeps_files|].
  destruct (writeBytesToFile_frame v fileName w) as (_ & H1 & H2 & H3 & _). done.
Qed.

Lemma writeBytesToFile_touches_one_file_witness :
  get_file ["srv"; "app"; "tmp"; "aug_64x64"; "notes.txt"]
    (fs (snd (writeBytesToFile (VBytes Sample.jpeg) (newNetworkAbsPath Sample.env)
                               Sample.trained)))
  = Ok Sample.notes
  /\ c3 (snd (writeBytesToFile (VBytes Sample.jpeg) (newNetworkAbsPath Sample.env)
                               Sample.trained)) = c3 Sample.trained
  /\ cwd (snd (writeBytesToFile (VBytes Sample.jpeg) (newNetworkAbsPath Sample.env)
                                Sample.trained)) = cwd Sample.trained
  /\ stdout (snd (writeBytesToFile (VBytes Sample.jpeg) (newNetworkAbsPath Sample.env)
                                   Sample.trained)) = stdout Sample.trained.
Proof.
  apply (writeBytesToFile_touches_one_file (VBytes Sample.jpeg)
           (newNetworkAbsPath Sample.env) Sample.trained
           ["srv"; "app"; "tmp"; "aug_64x64"; "notes.txt"] Sample.notes);
    [vm_compute; discriminate | reflexivity].
Defined.

(** ** Lines 37-62: more on [initState] *)

(** Lines 43-50 on any file system, whether they return or raise: only
    the file system changes, no file changes, and a directory found
    afterwards was there before or lies on the way to a working
    directory. *)
Lemma for_each_ensure_dir_any l w :
  exists r n,
    for_each l ensure_dir w = (r, set_fs n w)
    /\ (forall q c, get_file q (fs w) = Ok c -> get_file q n = Ok c)
    /\ (forall q, is_dir q n = true ->
          is_dir q (fs w) = true
          \/ exists rel, rel ∈ l /\ q `prefix_of` resolve (cwd w) rel).
Proof.
  revert w. induction l as [|p l IH]; intros w.
  { exists (Ok tt), (fs w). rewrite set_fs_same. split; [done|]. split; [done|]. by left. }
  change (for_each (p :: l) ensure_dir w) with ((ensure_dir p ;; for_each l ensure_dir) w).
  assert (exists r n1, ensure_dir p w = (r, set_fs n1 w)
            /\ (forall q c, get_file q (fs w) = Ok c -> get_file q n1 = Ok c)
            /\ (forall q, is_dir q n1 = true ->
                  is_dir q (fs w) = true \/ q `prefix_of` resolve (cwd w) p))
    as (r1 & n1 & Hrun & Hfiles & Hdirs).
  { unfold ensure_dir. rewrite (bind_ok _ _ _ _ _ (os_path_exists_eq p w)).
    destruct (path_exists (resolve (cwd w) p) (fs w)).
    - exists (Ok tt), (fs w). rewrite set_fs_same. split; [done|]. split; [done|]. by left.
    - rewrite os_makedirs_eq.
      destruct (mkdirs (resolve (cwd w) p) (fs w)) as [n1|e] eqn:Hmk.
      + exists (Ok tt), n1. split; [done|].
        split; [intros q c; by apply mkdirs_keeps_files with (p := resolve (cwd w) p)|].
        intros q. by apply mkdirs_new_dirs.
      + exists (Raise e), (fs w). rewrite set_fs_same. split; [done|]. split; [done|].
        by left. }
  destruct r1 as [[]|e].
  - rewrite (bind_ok _ _ _ _ _ Hrun).
    destruct (IH (set_fs n1 w)) as (r & n & Hrun' & Hfiles' & Hdirs').
    exists r, n. rewrite Hrun'. split; [done|]. split.
    + intros q c Hq. by apply Hfiles', Hfiles.
    + intros q Hq. destruct (Hdirs' q Hq) as [Hq1|(rel & Hrel & Hpre)].
      * destruct (Hdirs q Hq1) as [?|Hpre]; [by left|].
        right. exists p. split; [by left|done].
      * right. exists rel. split; [by right|done].
  - rewrite (bind_raise _ _ _ _ _ Hrun). exists (Raise e), n1. split; [done|].
    split; [done|]. intros q Hq. destruct (Hdirs q Hq) as [?|Hpre]; [by left|].
    right. exists p. split; [by left|done].
Qed.

Section Restart.

Variable E : Env.

(** What [initState] leaves behind when [c3] is set, by what followed
    the directories. *)
Lemma initState_after_dirs w st :
  c3 w = Some st ->
  exists r n,
    initState_dirs w = (r, set_fs n w)
    /\ (forall q c, get_file q (fs w) = Ok c -> get_file q n = Ok c)
    /\ (forall q, is_dir q n = true ->
          is_dir q (fs w) = true
          \/ exists rel, rel ∈ working_dirs /\ q `prefix_of` resolve (cwd w) rel)
    /\ match r with
       | Raise e => initState E w = (Raise e, set_fs n w)
       | Ok _ =>
           if no_stored_images st then
             initState E w
             = writeBytesToFile (network_value st) (oldNetworkAbsPath E) (set_fs n w)
           else
             exists e w', initState E w = (Raise e, w')
                          /\ fs w' = n /\ c3 w' = c3 w /\ cwd w' = cwd w
                          /\ stdout w' = stdout w
       end.
Proof.
  intros Hc.
  destruct (for_each_ensure_dir_any working_dirs w) as (r & n & Hrun & Hfiles & Hdirs).
  rewrite <- initState_dirs_for_each in Hrun.
  exists r, n. split; [done|]. split; [done|]. split; [done|].
  rewrite (initState_eq E _ _ Hc).
  destruct r as [[]|e]; [|by rewrite (bind_raise _ _ _ _ _ Hrun)].
  rewrite (bind_ok _ _ _ _ _ Hrun).
  assert (c3 (set_fs n w) = Some st) as Hc1 by done.
  pose proof (initState_images_spec E _ st Hc1) as Hi.
  destruct (no_stored_images st).
  - by rewrite (bind_ok _ _ _ _ _ Hi), (initState_network_eq E _ _ Hc1).
  - destruct Hi as (e & w' & Hr & Hfs & Hc3 & Hcwd & Hout).
    exists e, w'. by rewrite (bind_raise _ _ _ _ _ Hr).
Qed.

End Restart.

(** X7.  Without a service object [initState] prints its diagnostic
    and raises [C3Required] before it touches the disk.  With one it
    prints nothing.  In both cases it leaves [c3.state] and the current
    directory as they were. *)
Theorem initState_c3_required (E : Env) (w : World) :
  (c3 w = None ->
   initState E w
   = (Raise C3Required,
      mkWorld (fs w) (cwd w) None (stdout w ++ ["c3 is none"]) (calls w)))
  /\ (c3 w <> None -> stdout (snd (initState E w)) = stdout w)
  /\ c3 (snd (initState E w)) = c3 w
  /\ cwd (snd (initState E w)) = cwd w.
Proof.
  destruct (c3 w) as [st|] eqn:Hc.
  2:{ unfold initState. rewrite Hc. unfold bind, print, raise. simpl. by rewrite Hc. }
  split; [done|].
  destruct (initState_after_dirs E w st Hc) as (r & n & _ & _ & _ & Hrest).
  destruct r as [[]|e]; [|by rewrite Hrest].
  destruct (no_stored_images st).
  - rewrite Hrest.
    destruct (writeBytesToFile_frame (network_value st) (oldNetworkAbsPath E) (set_fs n w))
      as (_ & H1 & H2 & H3 & _).
    rewrite H1, H2, H3. done.
  - destruct Hrest as (e & w' & -> & _ & H1 & H2 & H3). simpl. by rewrite H1, H2, H3.
Qed.

Lemma initState_c3_required_witness :
  initState Sample.env Cases.unstarted
  = (Raise C3Required, mkWorld Sample.bare_disk "/srv/app" None ["c3 is none"] [])
  /\ stdout (snd (initState Sample.env Sample.reinstalled)) = [].
Proof.
  destruct (initState_c3_required Sample.env Cases.unstarted) as (Hnone & _).
  destruct (initState_c3_required Sample.env Sample.reinstalled) as (_ & Hsome & _).
  split; [by apply Hnone|by apply Hsome].
Defined.

(** X8.  [initState] cleans nothing up: a file that was on disk before
    the call, other than the old-network file, is there afterwards with
    the same content, however the call ends. *)
Theorem initState_keeps_existing_files
    (E : Env) (w : World) (q : list string) (c : bytes) :
  q <> resolve (cwd w) (oldNetworkAbsPath E) ->
  get_file q (fs w) = Ok c ->
  get_file q (fs (snd (initState E w))) = Ok c.
Proof.
  intros Hne Hq. destruct (c3 w) as [st|] eqn:Hc.
  2:{ unfold initState. by rewrite Hc. }
  destruct (initState_after_dirs E w st Hc) as (r & n & _ & Hfiles & _ & Hrest).
  specialize (Hfiles q c Hq).
  destruct r as [[]|e]; [|by rewrite Hrest].
  destruct (no_stored_images st).
  - rewrite Hrest. by apply writeBytesToFile_keeps_files.
  - destruct Hrest as (e & w' & -> & Hfs & _). simpl. by rewrite Hfs.
Qed.

Lemma initState_keeps_existing_files_witness :
  get_file ["srv"; "app"; "tmp"; "aug_64x64"; "notes.txt"]
           (fs (snd (initState Sample.env Sample.trained)))
  = Ok Sample.notes.
Proof.
  apply (initState_keeps_existing_files Sample.env Sample.trained
           ["srv"; "app"; "tmp"; "aug_64x64"; "notes.txt"] Sample.notes);
    [vm_compute; discriminate | reflexivity].
Defined.

Lemma working_dir_depth cwd0 rel :
  rel ∈ working_dirs -> length (resolve cwd0 rel) = length (components cwd0) + 2.
Proof.
  intros Hrel. rewrite (resolve_working_dir _ _ Hrel), length_app.
  revert Hrel. unfold working_dirs. rewrite !elem_of_cons, elem_of_nil.
  intros [->|[->|[->|[->|[]]]]]; reflexivity.
Qed.

(** X9.  A first start works: run from the module's directory, with
    [c3] set, nothing stored to put back, a byte-string network or none,
    and nothing in the way, [initState] returns; the four working
    directories then exist and the old-network file holds the stored
    network, or is empty when none was stored. *)
Theorem initState_succeeds_from_module_dir
    (E : Env) (w : World) (st : gmap string pyval) (d : bytes) :
  is_abs (moduleDir E) = true ->
  components (cwd w) = components (moduleDir E) ->
  c3 w = Some st ->
  unobstructed w = true ->
  no_stored_images st = true ->
  network_value st = VBytes d ->
  is_dir (resolve (cwd w) (oldNetworkAbsPath E)) (fs w) = false ->
  fst (initState E w) = Ok tt
  /\ working_dirs_exist (cwd w) (fs (snd (initState E w))) = true
  /\ get_file (resolve (cwd w) (oldNetworkAbsPath E)) (fs (snd (initState E w))) = Ok d.
Proof.
  intros Ha Hcwd Hc Hu Hn Hv Hold.
  destruct (initState_dirs_spec w Hu) as (n & Hrun & Hdirs & _).
  destruct (initState_after_dirs E w st Hc) as (r & n0 & Hrun0 & _ & Hnew & Hrest).
  rewrite Hrun in Hrun0. injection Hrun0 as <- <-. rewrite Hn in Hrest.
  assert (resolve (cwd w) (oldNetworkAbsPath E)
          = (resolve (cwd w) networkRelPath ++ ["old.net"])%list) as Hpath.
  { unfold oldNetworkAbsPath, networkAbsPath.
    rewrite (resolve_module_file E _ networkRelPath _ Ha), <- Hcwd.
    by rewrite app_assoc. }
  assert (networkRelPath ∈ working_dirs) as Hin by repeat constructor.
  assert (is_dir (resolve (cwd w) networkRelPath) n = true) as Hnet
    by (apply (proj1 (forallb_forall _ _) Hdirs); by apply list_elem_of_In).
  assert (is_dir (resolve (cwd w) networkRelPath ++ ["old.net"]) n = false) as Hfree.
  { destruct (is_dir (resolve (cwd w) networkRelPath ++ ["old.net"]) n) eqn:Hd; [|done].
    destruct (Hnew _ Hd) as [Hwas|(rel & Hrel & Hpre)].
    - by rewrite <- Hpath, Hold in Hwas.
    - apply prefix_length in Hpre.
      rewrite length_app, (working_dir_depth _ _ Hrel), (working_dir_depth _ _ Hin) in Hpre.
      simpl in Hpre. lia. }
  destruct (writeBytesToFile_writes d (oldNetworkAbsPath E) (set_fs n w) _ _
              Hpath Hnet Hfree) as (n2 & Hput & Hwrite).
  rewrite Hrest, Hv, Hwrite. simpl. split; [done|]. split.
  - unfold working_dirs_exist in *. apply forallb_forall. intros rel Hrel.
    apply (put_file_keeps_dirs _ _ _ _ _ Hput).
    by apply (proj1 (forallb_forall _ _) Hdirs).
  - rewrite Hpath. by apply get_put_file with (n := n).
Qed.

Lemma initState_succeeds_from_module_dir_witness :
  fst (initState Sample.env Sample.fresh) = Ok tt
  /\ working_dirs_exist (cwd Sample.fresh) (fs (snd (initState Sample.env Sample.fresh)))
     = true
  /\ get_file (resolve (cwd Sample.fresh) (oldNetworkAbsPath Sample.env))
              (fs (snd (initState Sample.env Sample.fresh))) = Ok [].
Proof.
  apply (initState_succeeds_from_module_dir Sample.env Sample.fresh ∅ []);
    reflexivity.
Defined.

(** ** Lines 114-123: more on [gatherState] *)

Lemma reads_only_ret {A} (a : A) : reads_only (ret a).
Proof. by intros w. Qed.

Lemma reads_only_raise {A} e : reads_only (@raise A e).
Proof. by intros w. Qed.

Lemma reads_only_bind {A B} (m : M A) (k : A -> M B) :
  reads_only m -> (forall a, reads_only (k a)) -> reads_only (bind m k).
Proof.
  intros Hm Hk w. unfold bind. specialize (Hm w).
  destruct (m w) as [[a|e] w']; simpl in Hm; [|done].
  destruct (Hk a w') as (H1 & H2 & H3 & H4), Hm as (G1 & G2 & G3 & G4).
  by rewrite H1, H2, H3, H4.
Qed.

Lemma reads_only_for_each {A} (l : list A) (body : A -> M unit) :
  (forall x, reads_only (body x)) -> reads_only (for_each l body).
Proof.
  intros Hb. induction l as [|x l IH]; [apply reads_only_ret|].
  apply reads_only_bind; [apply Hb|by intros _].
Qed.

Lemma reads_only_get_state : reads_only get_state.
Proof. intros w. unfold get_state. by destruct (c3 w). Qed.

Lemma reads_only_state_getitem key : reads_only (state_getitem key).
Proof.
  apply reads_only_bind; [apply reads_only_get_state|]. intros st.
  destruct (st !! key); [apply reads_only_ret|apply reads_only_raise].
Qed.

Lemma reads_only_state_setitem key v : reads_only (state_setitem key v).
Proof. apply reads_only_bind; [apply reads_only_get_state|]. by intros st w. Qed.

Lemma reads_only_state_append key x : reads_only (state_append key x).
Proof.
  apply reads_only_bind; [apply reads_only_state_getitem|].
  intros [| | | | |xs]; try apply reads_only_raise. apply reads_only_state_setitem.
Qed.

Lemma reads_only_keep_file r file : reads_only (keep_file r file).
Proof.
  unfold keep_file. destruct (contains _ file); [|apply reads_only_ret].
  apply reads_only_bind; [apply reads_only_state_getitem|]. intros _.
  apply reads_only_bind; [by intros w|]. intros b. apply reads_only_state_append.
Qed.

(** X10.  [gatherState] only reads the disk: on every world, and
    whether it returns or raises, the file system, the current
    directory, the output and the log of external calls are what they
    were. *)
Theorem gatherState_only_reads (E : Env) (w : World) :
  fs (snd (gatherState E w)) = fs w
  /\ cwd (snd (gatherState E w)) = cwd w
  /\ stdout (snd (gatherState E w)) = stdout w
  /\ calls (snd (gatherState E w)) = calls w.
Proof.
  revert w. change (reads_only (gatherState E)). unfold gatherState.
  apply reads_only_bind; [by intros w|]. intros b.
  apply reads_only_bind; [apply reads_only_state_setitem|]. intros _.
  apply reads_only_bind; [apply reads_only_state_setitem|]. intros _.
  apply reads_only_bind; [by intros w|]. intros triples.
  apply reads_only_for_each. intros [[r d] f].
  apply reads_only_for_each. intros file. apply reads_only_keep_file.
Qed.

(** The gatherer when [c3] is set and the new weights can be read, on a
    well-formed file system: it returns; an augmented directory that is
    missing counts as an empty one. *)
Lemma gatherState_run E w st net :
  c3 w = Some st ->
  wf (fs w) = true ->
  get_file (resolve (cwd w) (newNetworkAbsPath E)) (fs w) = Ok net ->
  gatherState E w
  = (Ok tt,
     set_state (<[augImagesKey :=
                    VList match find (resolve (cwd w) (augAbsPath E)) (fs w) with
                          | Ok n => gathered n
                          | Raise _ => []
                          end]>
                  (<[networkKey := VBytes net]> st)) w).
Proof.
  intros Hc Hwf Hnet.
  destruct (find (resolve (cwd w) (augAbsPath E)) (fs w)) as [n|e] eqn:Hfind.
  { by apply gatherState_spec. }
  unfold gatherState.
  assert (read_file (newNetworkAbsPath E) w = (Ok net, w)) as Hread
    by (unfold read_file; by rewrite Hnet).
  rewrite (bind_ok _ _ _ _ _ Hread).
  rewrite (bind_ok _ _ _ _ _ (state_setitem_eq _ _ _ _ Hc)).
  set (st1 := <[networkKey := VBytes net]> st). set (w1 := set_state st1 w).
  rewrite (bind_ok _ _ _ _ _ (state_setitem_eq augImagesKey (VList []) w1 st1 eq_refl)).
  set (w2 := set_state (<[augImagesKey := VList []]> st1) w1).
  rewrite (bind_ok _ _ _ _ _ (os_walk_eq _ w2)).
  change (fs w2) with (fs w). change (cwd w2) with (cwd w). by rewrite Hfind.
Qed.

(** X11.  All or nothing: on a well-formed file system [gatherState]
    returns when [c3] is set and the new weights file can be read; when
    [c3] is [None] or the weights cannot be read it raises and the
    world, [c3.state] included, is exactly what it was. *)
Theorem gatherState_all_or_nothing (E : Env) (w : World) :
  wf (fs w) = true ->
  (c3 w <> None ->
   (exists net, get_file (resolve (cwd w) (newNetworkAbsPath E)) (fs w) = Ok net) ->
   fst (gatherState E w) = Ok tt)
  /\ (c3 w = None
      \/ (exists e, get_file (resolve (cwd w) (newNetworkAbsPath E)) (fs w) = Raise e) ->
      exists e, gatherState E w = (Raise e, w)).
Proof.
  intros Hwf. split.
  - intros Hc [net Hnet]. destruct (c3 w) as [st|] eqn:Hst; [|done].
    by rewrite (gatherState_run E w st net Hst Hwf Hnet).
  - intros Hfail. unfold gatherState.
    destruct (get_file (resolve (cwd w) (newNetworkAbsPath E)) (fs w)) as [net|e] eqn:Hnet.
    + destruct Hfail as [Hc|[e He]]; [|done].
      assert (read_file (newNetworkAbsPath E) w = (Ok net, w)) as Hread
        by (unfold read_file; by rewrite Hnet).
      rewrite (bind_ok _ _ _ _ _ Hread). exists AttributeError.
      unfold state_setitem, get_state, bind. by rewrite Hc.
    + exists e. apply bind_raise. unfold read_file. by rewrite Hnet.
Qed.

Lemma gatherState_all_or_nothing_witness :
  fst (gatherState Sample.env Sample.trained) = Ok tt
  /\ exists e, gatherState Sample.env Sample.fresh = (Raise e, Sample.fresh).
Proof.
  split.
  - apply (proj1 (gatherState_all_or_nothing Sample.env Sample.trained eq_refl)).
    + discriminate.
    + exists Sample.weights. reflexivity.
  - apply (proj2 (gatherState_all_or_nothing Sample.env Sample.fresh eq_refl)).
    right. exists FileNotFoundError. reflexivity.
Defined.

(** X12.  A missing augmented directory is no error: [os.walk] yields
    nothing, [gatherState] returns, and ['aug_images'] becomes the
    empty list whatever it held. *)
Theorem gatherState_without_aug_dir
    (E : Env) (w : World) (st : gmap string pyval) (net : bytes) (e : exn) :
  c3 w = Some st ->
  wf (fs w) = true ->
  get_file (resolve (cwd w) (newNetworkAbsPath E)) (fs w) = Ok net ->
  find (resolve (cwd w) (augAbsPath E)) (fs w) = Raise e ->
  gatherState E w
  = (Ok tt,
     set_state (<[augImagesKey := VList []]> (<[networkKey := VBytes net]> st)) w).
Proof.
  intros Hc Hwf Hnet Hfind. rewrite (gatherState_run E w st net Hc Hwf Hnet).
  by rewrite Hfind.
Qed.

Lemma gatherState_without_aug_dir_witness :
  (c3 Cases.no_aug ≫= fun st => st !! augImagesKey) = Some (VList [VBytes Sample.jpeg])
  /\ gatherState Sample.env Cases.no_aug
     = (Ok tt,
        set_state (<[augImagesKey := VList []]>
                     (<[networkKey := VBytes Sample.weights]> Sample.stored))
                  Cases.no_aug).
Proof.
  split; [reflexivity|].
  apply (gatherState_without_aug_dir Sample.env Cases.no_aug Sample.stored
           Sample.weights FileNotFoundError); reflexivity.
Defined.

(** X13.  [gatherState] replaces, it does not accumulate: run a second
    time with the disk unchanged it gives the same world as the first
    run; and it leaves every key of [c3.state] other than ['network']
    and ['aug_images'] as it was. *)
Theorem gatherState_replaces
    (E : Env) (w : World) (st : gmap string pyval) (net : bytes) :
  c3 w = Some st ->
  wf (fs w) = true ->
  get_file (resolve (cwd w) (newNetworkAbsPath E)) (fs w) = Ok net ->
  gatherState E (snd (gatherState E w)) = gatherState E w
  /\ forall key, key <> networkKey -> key <> augImagesKey ->
       (c3 (snd (gatherState E w)) ≫= fun st' => st' !! key) = st !! key.
Proof.
  intros Hc Hwf Hnet. rewrite (gatherState_run E w st net Hc Hwf Hnet). simpl.
  split.
  - match goal with |- gatherState E (set_state ?st' w) = _ =>
      rewrite (gatherState_run E (set_state st' w) st' net eq_refl Hwf Hnet)
    end.
    simpl. rewrite set_state_twice. do 2 f_equal.
    apply map_eq. intros key. rewrite !lookup_insert. by repeat case_decide.
  - intros key H1 H2. by rewrite !lookup_insert_ne.
Qed.

Lemma gatherState_replaces_witness :
  gatherState Sample.env (snd (gatherState Sample.env Cases.annotated))
  = gatherState Sample.env Cases.annotated
  /\ (c3 (snd (gatherState Sample.env Cases.annotated)) ≫= fun st' => st' !! "owner")
     = Some (VStr "alice").
Proof.
  destruct (gatherState_replaces Sample.env Cases.annotated
              (<[ "owner" := VStr "alice" ]> Sample.stored) Sample.weights
              eq_refl eq_refl eq_refl) as [Htwice Hkeys].
  split; [exact Htwice|]. rewrite (Hkeys "owner"); [reflexivity|discriminate|discriminate].
Defined.

Lemma starts_with_spec pat s :
  starts_with pat s = true <-> exists post, s = pat +:+ post.
Proof.
  revert s. induction pat as [|a pat IH]; intros s; simpl.
  - split; [by exists s|done].
  - destruct s as [|b s]; [split; [done|by intros [post ?]]|].
    rewrite andb_true_iff, IH. split.
    + intros [->%Ascii.eqb_eq [post ->]]. by exists post.
    + intros [post Hs]. injection Hs as -> ->. split; [apply Ascii.eqb_refl|by exists post].
Qed.

(** [pat in s] holds exactly when [pat] occurs in [s]. *)
Lemma contains_spec pat s :
  contains pat s = true <-> exists pre post, s = pre +:+ pat +:+ post.
Proof.
  split.
  - induction s as [|c s IH]; simpl; rewrite orb_true_iff.
    + intros [[post Hs]%starts_with_spec|?]; [|done]. by exists "", post.
    + intros [[post Hs]%starts_with_spec|[pre [post ->]]%IH]; [by exists "", post|].
      by exists (String c pre), post.
  - intros (pre & post & ->). induction pre as [|c pre IH].
    + assert (starts_with pat (pat +:+ post) = true) as Hs
        by (apply starts_with_spec; by exists post).
      change ("" +:+ pat +:+ post) with (pat +:+ post).
      destruct (pat +:+ post); simpl; by rewrite Hs.
    + change (String c pre +:+ pat +:+ post) with (String c (pre +:+ pat +:+ post)).
      simpl. rewrite IH. apply orb_true_r.
Qed.

(** X14.  Which files are gathered is decided by the name alone: a
    byte string is in ['aug_images'] after [gatherState] exactly when
    it is the content of a file below the augmented directory whose
    name has ".JPEG" somewhere in it, at the end or not. *)
Theorem gatherState_keeps_by_name
    (E : Env) (w : World) (st : gmap string pyval) (net : bytes) (n : node) (b : bytes) :
  c3 w = Some st ->
  wf (fs w) = true ->
  get_file (resolve (cwd w) (newNetworkAbsPath E)) (fs w) = Ok net ->
  find (resolve (cwd w) (augAbsPath E)) (fs w) = Ok n ->
  exists l,
    (c3 (snd (gatherState E w)) ≫= fun st' => st' !! augImagesKey) = Some (VList l)
    /\ (VBytes b ∈ l <->
        exists name pre post,
          (name, b) ∈ tree_files n /\ name = pre +:+ ".JPEG" +:+ post).
Proof.
  intros Hc Hwf Hnet Hfind. rewrite (gatherState_spec E w st net n Hc Hwf Hnet Hfind).
  exists (gathered n). simpl. rewrite lookup_insert_eq. split; [done|].
  unfold gathered. rewrite list_elem_of_fmap. split.
  - intros ([name b'] & [= <-] & Hin). apply list_elem_of_In, filter_In in Hin as [Hin Hk].
    apply contains_spec in Hk as (pre & post & Hname). simpl in Hname.
    exists name, pre, post. split; [by apply list_elem_of_In|done].
  - intros (name & pre & post & Hin & Hname). exists (name, b). split; [done|].
    apply list_elem_of_In, filter_In. split; [by apply list_elem_of_In|].
    apply contains_spec. by exists pre, post.
Qed.

Lemma gatherState_keeps_by_name_witness :
  exists l,
    (c3 (snd (gatherState Sample.env Sample.trained)) ≫= fun st' => st' !! augImagesKey)
    = Some (VList l)
    /\ (VBytes Sample.other_jpeg ∈ l <->
        exists name pre post,
          (name, Sample.other_jpeg) ∈ tree_files Sample.aug_tree
          /\ name = pre +:+ ".JPEG" +:+ post).
Proof.
  apply (gatherState_keeps_by_name Sample.env Sample.trained ∅ Sample.weights
           Sample.aug_tree Sample.other_jpeg); reflexivity.
Defined.

(** ** Lines 85-112: more on [acceptImage] *)

Lemma resolve_inputFile E cwd0 :
  is_abs (moduleDir E) = true ->
  resolve cwd0 (inputFile E) = (resolve cwd0 (inputAbsPath E) ++ ["input.JPEG"])%list.
Proof.
  intros Ha. unfold inputFile, inputAbsPath.
  rewrite (resolve_module_file E _ inputRelPath _ Ha).
  by rewrite (resolve_module_path _ _ _ Ha), <- app_assoc.
Qed.

(** X15.  Without the input directory, which [initState] creates only
    when the process runs from the module's directory, an image that
    passes validation gets no further than line 99: [acceptImage]
    raises, nothing is written, and the augmentation routine is not
    called. *)
Theorem acceptImage_without_input_dir
    (E : Env) (im : Image) (w : World) (v : pyval) :
  is_abs (moduleDir E) = true ->
  verify im = Ok v ->
  truthy v = true ->
  is_dir (resolve (cwd w) (inputAbsPath E)) (fs w) = false ->
  (exists e, fst (acceptImage E (Some im) w) = Raise e)
  /\ fs (snd (acceptImage E (Some im) w)) = fs w
  /\ c3 (snd (acceptImage E (Some im) w)) = c3 w
  /\ calls (snd (acceptImage E (Some im) w))
     = (calls w ++ [CallVerify; CallSave (inputFile E) (Some standardImgFormat)])%list.
Proof.
  intros Ha Hv Ht Hdir.
  assert (exists e,
            acceptImage E (Some im) w
            = (Raise e,
               mkWorld (fs w) (cwd w) (c3 w) (stdout w)
                       (calls w ++ [CallVerify;
                                    CallSave (inputFile E) (Some standardImgFormat)])))
    as [e ->]; [|by eauto].
  rewrite (acceptImage_truthy E _ _ _ Hv Ht).
  unfold bind at 1. rewrite call_save_eq.
  destruct (encode im (inputFile E) (Some standardImgFormat)) as [b|e].
  - simpl. destruct (put_file (resolve (cwd w) (inputFile E)) b (fs w)) as [n1|e] eqn:Hput.
    + rewrite (resolve_inputFile _ _ Ha) in Hput.
      apply put_file_needs_dir in Hput. congruence.
    + exists e. by rewrite <- app_assoc.
  - exists e. simpl. by rewrite <- app_assoc.
Qed.

Lemma acceptImage_without_input_dir_witness :
  (exists e, fst (acceptImage Sample.env (Some Sample.picture) Sample.fresh) = Raise e)
  /\ fs (snd (acceptImage Sample.env (Some Sample.picture) Sample.fresh)) = fs Sample.fresh
  /\ c3 (snd (acceptImage Sample.env (Some Sample.picture) Sample.fresh)) = c3 Sample.fresh
  /\ calls (snd (acceptImage Sample.env (Some Sample.picture) Sample.fresh))
     = (calls Sample.fresh
          ++ [CallVerify; CallSave (inputFile Sample.env) (Some standardImgFormat)])%list.
Proof.
  apply (acceptImage_without_input_dir Sample.env Sample.picture Sample.fresh (VBool true));
    reflexivity.
Defined.

(** X16.  No rollback: when the augmentation routine raises,
    [acceptImage] passes the exception on as it is, [c3.state] is
    untouched, and the input picture written at line 99 is not removed:
    the file system is the one the routine left. *)
Theorem acceptImage_augmentation_failure
    (E : Env) (im : Image) (w : World) (v : pyval) (b : bytes) (n1 n2 : node) (e : exn) :
  verify im = Ok v ->
  truthy v = true ->
  encode im (inputFile E) (Some standardImgFormat) = Ok b ->
  put_file (resolve (cwd w) (inputFile E)) b (fs w) = Ok n1 ->
  gd_gen E (inputAbsPath E) (augAbsPath E) (unaugAbsPath E) n1 = (Raise e, n2) ->
  fst (acceptImage E (Some im) w) = Raise e
  /\ fs (snd (acceptImage E (Some im) w)) = n2
  /\ c3 (snd (acceptImage E (Some im) w)) = c3 w
  /\ get_file (resolve (cwd w) (inputFile E)) n1 = Ok b.
Proof.
  intros Hv Ht He Hput Hgen.
  rewrite (acceptImage_saved E _ _ _ _ _ Hv Ht He Hput), Hgen. simpl.
  repeat split. by apply get_put_file with (n := fs w).
Qed.

Lemma acceptImage_augmentation_failure_witness :
  fst (acceptImage Cases.failing_env (Some Sample.picture) Sample.trained)
  = Raise (OtherError "no face found")
  /\ get_file ["srv"; "app"; "tmp"; "input"; "input.JPEG"]
              (fs (snd (acceptImage Cases.failing_env (Some Sample.picture) Sample.trained)))
     = Ok Sample.jpeg.
Proof.
  destruct (acceptImage_augmentation_failure Cases.failing_env Sample.picture
              Sample.trained (VBool true) Sample.jpeg
              (fs (snd (acceptImage Cases.failing_env (Some Sample.picture) Sample.trained)))
              (fs (snd (acceptImage Cases.failing_env (Some Sample.picture) Sample.trained)))
              (OtherError "no face found") eq_refl eq_refl eq_refl eq_refl eq_refl)
    as (Hraise & Hfs & _ & Hfile).
  split; [exact Hraise|exact Hfile].
Defined.

(** ** Lines 30-35: [main] *)

Section Serving.

Variable S : Sdk.
Variable E : Env.

(** [main] up to the call of [initState]. *)
Lemma main_eq w h w0 w1 :
  NewC3 S w = (Ok (Some h), w0) ->
  registerMethod S "acceptImage" (set_c3 (Some h) w0) = (Ok tt, w1) ->
  main S E w = (initState E ;; on_c3 (serve S)) w1.
Proof.
  intros Hnew Hreg. unfold main.
  change (load_global "sdk") with (@ret unit tt).
  unfold bind at 1, ret. unfold bind at 1. rewrite Hnew.
  unfold bind at 1. unfold bind at 1, on_c3 at 1. simpl. by rewrite Hreg.
Qed.

End Serving.

(** X17.  [main] starts serving only after [initState] has returned:
    when [initState] raises, [main] raises the same exception and the
    world is the one [initState] left, so [c3.serve()] has not run.  In
    particular a service whose state holds a stored image never gets to
    serve. *)
Theorem main_serves_only_after_initState
    (S : Sdk) (E : Env) (w w0 w1 : World) (h : gmap string pyval) :
  NewC3 S w = (Ok (Some h), w0) ->
  registerMethod S "acceptImage" (set_c3 (Some h) w0) = (Ok tt, w1) ->
  (forall e, fst (initState E w1) = Raise e ->
     main S E w = (Raise e, snd (initState E w1)))
  /\ (forall st x l, c3 w1 = Some st -> st !! augImagesKey = Some (VList (x :: l)) ->
        exists e, main S E w = (Raise e, snd (initState E w1))).
Proof.
  intros Hnew Hreg.
  assert (forall e, fst (initState E w1) = Raise e ->
            main S E w = (Raise e, snd (initState E w1))) as Hstop.
  { intros e He. rewrite (main_eq S E _ _ _ _ Hnew Hreg). unfold bind.
    destruct (initState E w1) as [r w2]. simpl in He. by subst r. }
  split; [done|]. intros st x l Hc Hl.
  destruct (initState_after_dirs E w1 st Hc) as (r & n & _ & _ & _ & Hrest).
  destruct r as [[]|e].
  - unfold no_stored_images in Hrest. rewrite Hl in Hrest. simpl in Hrest.
    destruct Hrest as (e & w' & Hrun & _). exists e. apply Hstop. by rewrite Hrun.
  - exists e. apply Hstop. by rewrite Hrest.
Qed.

Lemma main_serves_only_after_initState_witness :
  exists e,
    main Cases.sdk Sample.env Cases.unstarted
    = (Raise e, snd (initState Sample.env Sample.reinstalled))
    /\ stdout (snd (initState Sample.env Sample.reinstalled)) = [].
Proof.
  destruct (main_serves_only_after_initState Cases.sdk Sample.env Cases.unstarted
              Cases.unstarted Sample.reinstalled Sample.stored eq_refl eq_refl)
    as [_ Hstored].
  destruct (Hstored Sample.stored (VBytes Sample.jpeg) [] eq_refl eq_refl) as [e He].
  exists e. split; [exact He|reflexivity].
Defined.

(** X18.  When [sdk.NewC3()] hands back [None], [main] fails at line
    33 with [AttributeError]: [initState] and its [C3Required] are not
    reached, no directory is created and nothing is served. *)
Theorem main_without_service_object (S : Sdk) (E : Env) (w w0 : World) :
  NewC3 S w = (Ok None, w0) ->
  main S E w = (Raise AttributeError, set_c3 None w0).
Proof.
  intros Hnew. unfold main.
  change (load_global "sdk") with (@ret unit tt).
  unfold bind at 1, ret. unfold bind at 1. by rewrite Hnew.
Qed.

Lemma main_without_service_object_witness :
  main Cases.absent_sdk Sample.env Cases.unstarted
  = (Raise AttributeError, set_c3 None Cases.unstarted).
Proof.
  apply (main_without_service_object Cases.absent_sdk Sample.env
           Cases.unstarted Cases.unstarted).
  reflexivity.
Defined.

(* ================================================================== *)
(** * The claims, continued *)

(** C3, at the input where the claim fails.  Everything a successful
    call needs is there: the picture passes validation, it is saved,
    the augmentation routine returns, the training script would exit
    with status 0 and the new weights file is on disk.  [acceptImage]
    still does not return: it raises [NameError] for the name
    [subprocess] at line 107, [gatherState] is not run, and [c3.state]
    has neither ['network'] nor ['aug_images'] afterwards, although
    [gatherState] itself, run on the world the call left, would store
    both. *)
Theorem acceptImage_never_gathers :
  fst (acceptImage Cases.healthy_env (Some Sample.picture) Sample.trained)
  = Raise (NameError "subprocess")
  /\ fst (subprocess_run Cases.healthy_env (training_command Cases.healthy_env)
            (fs (snd (acceptImage Cases.healthy_env (Some Sample.picture) Sample.trained))))
     = Ok 0%Z
  /\ get_file ["srv"; "app"; "tmp"; "input"; "input.JPEG"]
              (fs (snd (acceptImage Cases.healthy_env (Some Sample.picture) Sample.trained)))
     = Ok Sample.jpeg
  /\ c3 (snd (acceptImage Cases.healthy_env (Some Sample.picture) Sample.trained))
     = Some ∅
  /\ exists w',
      gatherState Cases.healthy_env
        (snd (acceptImage Cases.healthy_env (Some Sample.picture) Sample.trained))
      = (Ok tt, w')
      /\ (c3 w' ≫= fun st => st !! networkKey) = Some (VBytes Sample.weights)
      /\ (c3 w' ≫= fun st => st !! augImagesKey)
         = Some (VList [VBytes Sample.jpeg; VBytes Sample.other_jpeg]).
Proof.
  split; [vm_compute; reflexivity|]. split; [vm_compute; reflexivity|].
  split; [vm_compute; reflexivity|]. split; [reflexivity|].
  eexists. split.
  - apply (gatherState_spec Cases.healthy_env _ ∅ Sample.weights Sample.aug_tree);
      vm_compute; reflexivity.
  - simpl. rewrite lookup_insert_eq.
    rewrite lookup_insert_ne by discriminate. rewrite lookup_insert_eq. done.
Qed.



